(** * Journey selection, fare normalisation and commute-cost projection

    A shallow embedding of [route_calculator.py] (class [TravelCalculator]).

    Conventions of the embedding.
    - A JSON object read with [d.get(k)] / [k in d] is a record whose fields
      are options: [None] is "key absent".  Fields are typed as the upstream
      schema types them (numbers, strings, lists).
    - Python numbers are exact rationals ([Qc]); binary64 rounding is outside
      the model, so [x / 100] is the exact quotient.
    - Text is ASCII ([string]); [str.strip] and [str.lower] are modelled on
      ASCII characters.
    - The calculator object is a record threaded through the operations; the
      HTTP layer is an oracle from requests to outcomes, and every request
      issued is appended to a log kept in the state.  Console output is not
      part of the modelled state. *)

From stdpp Require Import gmap strings list.
From Stdlib Require Import QArith Qcanon Lqa.

Open Scope Qc_scope.

(** ** Python numbers and truthiness *)

Abbreviation num := Qc.

(** [n] as written in the source ([100], [4.33], ...). *)
Definition lit (q : Q) : num := Q2Qc q.

(** [bool(x)] for a number. *)
Definition truthy_num (x : num) : bool := bool_decide (x ≠ lit 0).

(** [bool(d.get(k))] for a numeric entry: absent, [None] and [0] are falsy. *)
Definition truthy (o : option num) : bool :=
  match o with
  | Some x => truthy_num x
  | None => false
  end.

(** [x > 0]. *)
Definition positive_num (x : num) : bool := bool_decide (lit 0 < x).

(** [min(a, b)]: Python returns the first argument unless the second is
    strictly smaller. *)
Definition py_min (a b : num) : num := if bool_decide (b < a) then b else a.

(** ** Raw service records *)

(** One element of [fare.fares]. *)
Record raw_fare := RawFare {
  lowZone : option num;
  highZone : option num
}.

(** The [fare] block of a journey. *)
Record raw_fare_block := RawFareBlock {
  totalCost : option num;
  fares : option (list raw_fare);
  caveatText : option string
}.

(** [departurePoint] / [arrivalPoint]. *)
Record raw_point := RawPoint {
  commonName : option string;
  lat : option num;
  lon : option num
}.

Record raw_leg := RawLeg {
  mode_name : option string;
  departurePoint : option raw_point;
  arrivalPoint : option raw_point;
  leg_duration : option Z
}.

Record raw_journey := RawJourney {
  duration : option Z;
  startDateTime : option string;
  arrivalDateTime : option string;
  legs : option (list raw_leg);
  fare : option raw_fare_block
}.

(** The body of a journey-planner response. *)
Record tfl_data := TflData {
  journeys : option (list raw_journey)
}.

(** ** Fare extraction *)

(** The [fare_info] dictionary built by [_extract_fare]. *)
Record fare_info := FareInfo {
  total_cost : option num;
  peak_single : option num;
  off_peak_single : option num;
  zones : option string
}.

Definition set_total_cost (v : num) (f : fare_info) : fare_info :=
  FareInfo (Some v) (peak_single f) (off_peak_single f) (zones f).
Definition set_peak_single (v : num) (f : fare_info) : fare_info :=
  FareInfo (total_cost f) (Some v) (off_peak_single f) (zones f).
Definition set_off_peak_single (v : num) (f : fare_info) : fare_info :=
  FareInfo (total_cost f) (peak_single f) (Some v) (zones f).
Definition set_zones (v : string) (f : fare_info) : fare_info :=
  FareInfo (total_cost f) (peak_single f) (off_peak_single f) (Some v).

(** The block guarded by [if 'totalCost' in fare_data]. *)
Definition fare_from_total (fare_data : raw_fare_block) (fi : fare_info) : fare_info :=
  match totalCost fare_data with
  | Some tc =>
      if truthy_num tc && positive_num tc
      then set_total_cost (tc / lit 100) fi
      else fi
  | None => fi
  end.

(** The [elif 'highZone' in first_fare and first_fare['highZone'] > 0] arm. *)
Definition fare_try_high (first_fare : raw_fare) (fi : fare_info) : fare_info :=
  match highZone first_fare with
  | Some h =>
      if positive_num h
      then set_peak_single (h / lit 100) (set_total_cost (h / lit 100) fi)
      else fi
  | None => fi
  end.

(** The [if ... elif ...] on [lowZone] / [highZone] ("Try different fare
    fields"). *)
Definition fare_try_zones (first_fare : raw_fare) (fi : fare_info) : fare_info :=
  match lowZone first_fare with
  | Some l =>
      if positive_num l
      then set_off_peak_single (l / lit 100) (set_total_cost (l / lit 100) fi)
      else fare_try_high first_fare fi
  | None => fare_try_high first_fare fi
  end.

(** The two unconditional assignments ("Store both if available"). *)
Definition fare_store_both (first_fare : raw_fare) (fi : fare_info) : fare_info :=
  let fi :=
    match highZone first_fare with
    | Some h => set_peak_single (h / lit 100) fi
    | None => fi
    end in
  match lowZone first_fare with
  | Some l => set_off_peak_single (l / lit 100) fi
  | None => fi
  end.

(** The block guarded by
    [if not fare_info['total_cost'] and 'fares' in fare_data and len(...) > 0]. *)
Definition fare_from_breakdown (fare_data : raw_fare_block) (fi : fare_info) : fare_info :=
  if negb (truthy (total_cost fi)) then
    match fares fare_data with
    | Some (first_fare :: _) => fare_store_both first_fare (fare_try_zones first_fare fi)
    | Some [] => fi
    | None => fi
    end
  else fi.

(** The block guarded by [if 'caveatText' in fare_data]. *)
Definition fare_zones (fare_data : raw_fare_block) (fi : fare_info) : fare_info :=
  match caveatText fare_data with
  | Some c => set_zones c fi
  | None => fi
  end.

Definition empty_fare_info : fare_info := FareInfo None None None None.

Definition _extract_fare (journey : raw_journey) : fare_info :=
  match fare journey with
  | Some fare_data =>
      fare_zones fare_data
        (fare_from_breakdown fare_data
           (fare_from_total fare_data empty_fare_info))
  | None => empty_fare_info
  end.

(** ** Text helpers *)

(** [str.isspace] on ASCII: TAB..CR, FS..US and the space. *)
Definition is_space (c : Ascii.ascii) : bool :=
  let n := Ascii.nat_of_ascii c in
  ((9 <=? n)%nat && (n <=? 13)%nat) || ((28 <=? n)%nat && (n <=? 32)%nat).

Fixpoint lstrip (s : string) : string :=
  match s with
  | String c s' => if is_space c then lstrip s' else s
  | EmptyString => EmptyString
  end.

Definition rstrip (s : string) : string := String.rev (lstrip (String.rev s)).

(** [s.strip()]. *)
Definition strip (s : string) : string := rstrip (lstrip s).

Definition lower_char (c : Ascii.ascii) : Ascii.ascii :=
  let n := Ascii.nat_of_ascii c in
  if (65 <=? n)%nat && (n <=? 90)%nat then Ascii.ascii_of_nat (n + 32) else c.

(** [s.lower()]. *)
Fixpoint lower (s : string) : string :=
  match s with
  | String c s' => String (lower_char c) (lower s')
  | EmptyString => EmptyString
  end.

(** [s.replace(' ', '%20')]. *)
Fixpoint percent_encode_spaces (s : string) : string :=
  match s with
  | String c s' =>
      if (Ascii.nat_of_ascii c =? 32)%nat
      then ("%20" ++ percent_encode_spaces s')%string
      else String c (percent_encode_spaces s')
  | EmptyString => EmptyString
  end.

(** [bool(s)] for an optional string: [None] and [''] are falsy. *)
Definition truthy_str (o : option string) : bool :=
  match o with
  | Some EmptyString => false
  | Some _ => true
  | None => false
  end.

(** ** Duplicate-route filter of [get_all_journey_options] *)

Abbreviation route_key_t := (string * string)%type.

Definition empty_point : raw_point := RawPoint None None None.

(** [leg.get('departurePoint', {}).get('commonName', '').strip()]. *)
Definition start_station (first_leg : raw_leg) : string :=
  strip (default EmptyString (commonName (default empty_point (departurePoint first_leg)))).

(** [leg.get('arrivalPoint', {}).get('commonName', '').strip()]. *)
Definition end_station (last_leg : raw_leg) : string :=
  strip (default EmptyString (commonName (default empty_point (arrivalPoint last_leg)))).

Definition route_key (first_leg last_leg : raw_leg) : route_key_t :=
  (lower (start_station first_leg), lower (end_station last_leg)).

(** [journey.get('legs', [])]. *)
Definition journey_legs (journey : raw_journey) : list raw_leg :=
  default [] (legs journey).

(** One iteration of [for journey in journeys]: the pair is
    [(filtered_journeys, seen_routes)]. *)
Definition dedup_step (acc : list raw_journey * gset route_key_t)
    (journey : raw_journey) : list raw_journey * gset route_key_t :=
  let legs := journey_legs journey in
  match legs with
  | first_leg :: _ =>
      let last_leg := default first_leg (last legs) in
      let key := route_key first_leg last_leg in
      if bool_decide (key ∈ acc.2) then acc
      else (acc.1 ++ [journey], {[key]} ∪ acc.2)
  | [] => acc
  end.

(** The whole loop, started from [filtered_journeys = []] and
    [seen_routes = set()]. *)
Definition filter_duplicate_routes (journeys : list raw_journey) : list raw_journey :=
  (foldl dedup_step ([], ∅) journeys).1.

(** What [get_all_journey_options] returns once the response body [data] has
    been read: [None] is Python's [None]. *)
Definition journey_options_of_data (data : tfl_data) : option (list raw_journey) :=
  match default [] (journeys data) with
  | [] => None
  | js =>
      match filter_duplicate_routes js with
      | [] => None
      | filtered_journeys => Some filtered_journeys
      end
  end.

(** *** The filter as the specification words it *)

(** The key of a journey with at least one leg; no key for a journey with no
    legs. *)
Definition journey_key (journey : raw_journey) : option route_key_t :=
  match journey_legs journey with
  | first_leg :: _ =>
      Some (route_key first_leg (default first_leg (last (journey_legs journey))))
  | [] => None
  end.

(** Keep a journey when it has a key that no journey before it has. *)
Fixpoint first_per_key (earlier : list raw_journey) (js : list raw_journey)
    : list raw_journey :=
  match js with
  | j :: rest =>
      match journey_key j with
      | Some k =>
          if bool_decide (Some k ∈ journey_key <$> earlier)
          then first_per_key (earlier ++ [j]) rest
          else j :: first_per_key (earlier ++ [j]) rest
      | None => first_per_key (earlier ++ [j]) rest
      end
  | [] => []
  end.

(** ** The HTTP layer *)

(** The subclasses of [requests.exceptions.RequestException] that
    [requests.get], [raise_for_status] and [response.json] raise; each
    carries the text [str(e)]. *)
Inductive request_exception :=
| ReadTimeout (msg : string)
| ConnectionError (msg : string)
| HTTPError (msg : string)
| JSONDecodeError (msg : string).

(** [str(e)]. *)
Definition exc_str (e : request_exception) : string :=
  match e with
  | ReadTimeout m | ConnectionError m | HTTPError m | JSONDecodeError m => m
  end.

(** A journey-planner request: the URL and the [params] dictionary in
    insertion order (a value may be [None], as ['mode': mode]). *)
Record tfl_request := TflRequest {
  req_url : string;
  req_params : list (string * option string)
}.

(** A road-router request: the URL
    [{base}/route/v1/{profile}/{lon},{lat};{lon},{lat}] is kept as its
    components, with the fixed [params]. *)
Record osrm_request := OsrmRequest {
  osrm_base : string;
  osrm_profile : string;
  osrm_from : num * num;
  osrm_to : num * num;
  osrm_params : list (string * string)
}.

Record osrm_route := OsrmRoute {
  distance : num;
  route_duration : num
}.

Record osrm_data := OsrmData {
  code : option string;
  routes : option (list osrm_route)
}.

Inductive http_request :=
| TflGet (r : tfl_request)
| OsrmGet (r : osrm_request).

(** What the program cannot decide: the answers of the two services and the
    clock.  [inl e] is an exception raised inside the [try] block. *)
Record env := Env {
  tfl_get : tfl_request → request_exception + tfl_data;
  osrm_get : osrm_request → request_exception + osrm_data;
  today : string
}.

(** ** The calculator object *)

(** What [raw_data] holds: the journey on success, the whole response when no
    journey was found. *)
Inductive raw_payload :=
| RawJourneyData (j : raw_journey)
| RawResponse (d : tfl_data).

(** The dictionary returned by [get_tfl_journey] and accepted by the
    printing, map and cost operations.  [r_success] is the truth value of
    [journey.get('success')]. *)
Record journey_result := JourneyResult {
  r_success : bool;
  r_error : option string;
  r_duration_minutes : option Z;
  r_arrival_time : option string;
  r_start_time : option string;
  r_legs : option nat;
  r_fare : option fare_info;
  r_raw_data : option raw_payload
}.

(** [{'success': False, 'error': msg}]. *)
Definition error_result (msg : string) : journey_result :=
  JourneyResult false (Some msg) None None None None None None.

(** [{'success': False, 'error': msg, 'raw_data': data}]. *)
Definition error_result_with_data (msg : string) (data : tfl_data) : journey_result :=
  JourneyResult false (Some msg) None None None None None (Some (RawResponse data)).

(** The success dictionary built from one raw journey, in [get_tfl_journey]
    and in [select_journey_option]. *)
Definition journey_result_of (journey : raw_journey) : journey_result :=
  JourneyResult true None
    (Some (default 0%Z (duration journey)))
    (arrivalDateTime journey)
    (startDateTime journey)
    (Some (length (journey_legs journey)))
    (Some (_extract_fare journey))
    (Some (RawJourneyData journey)).

(** The instance attributes, with the log of requests sent so far. *)
Record calculator := Calculator {
  tfl_app_key : option string;
  tfl_base_url : string;
  osrm_base_url : string;
  last_journey : option journey_result;
  requests_log : list http_request
}.

(** [TravelCalculator.__init__]: [getenv] is the value of [TFL_APP_KEY]. *)
Definition __init__ (tfl_app_key getenv : option string) : calculator :=
  Calculator (if truthy_str tfl_app_key then tfl_app_key else getenv)
    "https://api.tfl.gov.uk" "http://router.project-osrm.org" None [].

Definition set_last_journey (r : journey_result) (self : calculator) : calculator :=
  Calculator (tfl_app_key self) (tfl_base_url self) (osrm_base_url self)
    (Some r) (requests_log self).

Definition log_request (r : http_request) (self : calculator) : calculator :=
  Calculator (tfl_app_key self) (tfl_base_url self) (osrm_base_url self)
    (last_journey self) (requests_log self ++ [r]).

(** [f"{base}/Journey/JourneyResults/{from_encoded}/to/{to_encoded}"]. *)
Definition journey_url (self : calculator) (from_location to_location : string) : string :=
  (tfl_base_url self ++ "/Journey/JourneyResults/"
     ++ percent_encode_spaces from_location ++ "/to/"
     ++ percent_encode_spaces to_location)%string.

(** [params[k] = v] when [v] is truthy. *)
Definition add_param (k : string) (v : option string)
    (params : list (string * option string)) : list (string * option string) :=
  if truthy_str v then params ++ [(k, v)] else params.

Definition time_is (time_is_arrival : bool) : string :=
  if time_is_arrival then "Arriving" else "Departing".

(** *** [get_tfl_journey] *)

Definition tfl_journey_params (E : env) (self : calculator)
    (mode : option string) (time_is_arrival : bool)
    (via journey_preference time date : option string)
    : list (string * option string) :=
  let via_encoded := if truthy_str via then percent_encode_spaces <$> via else None in
  let date := match date with Some d => d | None => today E end in
  let params := [("app_key", tfl_app_key self); ("mode", mode);
                 ("timeIs", Some (time_is time_is_arrival))] in
  let params := add_param "via" via_encoded params in
  let params := add_param "journeyPreference" journey_preference params in
  let params := add_param "time" time params in
  params ++ [("date", Some date)].

(** The [try] block once the response is in: the first journey, or "No
    journey found". *)
Definition first_journey_result (data : tfl_data) : journey_result :=
  match journeys data with
  | Some (journey :: _) => journey_result_of journey
  | Some [] | None => error_result_with_data "No journey found" data
  end.

(** The request sent by [requests.get(url, params=params, timeout=10)]. *)
Definition tfl_journey_request (E : env) (self : calculator)
    (from_location to_location : string)
    (mode : option string) (time_is_arrival : bool)
    (via journey_preference time date : option string) : tfl_request :=
  TflRequest (journey_url self from_location to_location)
    (tfl_journey_params E self mode time_is_arrival via journey_preference time date).

Definition get_tfl_journey (E : env) (from_location to_location : string)
    (mode : option string) (time_is_arrival : bool)
    (via journey_preference time date : option string)
    (self : calculator) : journey_result * calculator :=
  if negb (truthy_str (tfl_app_key self)) then
    (error_result "TfL API key not found. Set TFL_APP_KEY in .env file", self)
  else
    let req := tfl_journey_request E self from_location to_location mode
                 time_is_arrival via journey_preference time date in
    let self := log_request (TflGet req) self in
    let result :=
      match tfl_get E req with
      | inr data => first_journey_result data
      | inl e => error_result ("API request failed: " ++ exc_str e)
      end in
    (result, set_last_journey result self).

(** *** [get_all_journey_options] *)

(** The recognised [**kwargs]. *)
Record options := Options {
  o_mode : option string;
  o_via : option string;
  o_journey_preference : option string;
  o_time : option string;
  o_date : option string;
  o_time_is_arrival : bool
}.

Definition no_options : options := Options None None None None None false.

Definition all_options_params (E : env) (self : calculator) (kwargs : options)
    : list (string * option string) :=
  let params := [("app_key", tfl_app_key self);
                 ("timeIs", Some (time_is (o_time_is_arrival kwargs)))] in
  let params := add_param "mode" (o_mode kwargs) params in
  let params :=
    add_param "via"
      (if truthy_str (o_via kwargs) then percent_encode_spaces <$> o_via kwargs else None)
      params in
  let params := add_param "journeyPreference" (o_journey_preference kwargs) params in
  let params := add_param "time" (o_time kwargs) params in
  params ++ [("date", Some (default (today E) (o_date kwargs)))].

Definition all_options_request (E : env) (self : calculator)
    (from_location to_location : string) (kwargs : options) : tfl_request :=
  TflRequest (journey_url self from_location to_location)
    (all_options_params E self kwargs).

Definition get_all_journey_options (E : env) (from_location to_location : string)
    (kwargs : options) (self : calculator)
    : option (list raw_journey) * calculator :=
  if negb (truthy_str (tfl_app_key self)) then (None, self)
  else
    let req := all_options_request E self from_location to_location kwargs in
    let self := log_request (TflGet req) self in
    match tfl_get E req with
    | inr data => (journey_options_of_data data, self)
    | inl e => (None, self)
    end.

(** *** [print_all_journey_options] *)

(** Sends the same request and applies the same filter; returns the whole
    response [data] when an option is left to print, else [None]. *)
Definition print_all_journey_options (E : env) (from_location to_location : string)
    (kwargs : options) (self : calculator) : option tfl_data * calculator :=
  if negb (truthy_str (tfl_app_key self)) then (None, self)
  else
    let req := all_options_request E self from_location to_location kwargs in
    let self := log_request (TflGet req) self in
    match tfl_get E req with
    | inr data =>
        match default [] (journeys data) with
        | [] => (None, self)
        | js =>
            match filter_duplicate_routes js with
            | [] => (None, self)
            | _ => (Some data, self)
            end
        end
    | inl e => (None, self)
    end.

(** *** [select_journey_option] *)

(** One answer to the [input(...)] prompt: a line, or Ctrl-C. *)
Inductive user_input :=
| Line (s : string)
| KeyboardInterrupt.

(** How a call ends: with a value, or with the [EOFError] that [input]
    raises when no answer is left (the loop has no handler for it). *)
Inductive outcome (A : Type) :=
| Returned (a : A)
| RaisedEOFError.
Arguments Returned {A} a.
Arguments RaisedEOFError {A}.

Definition digit_of (c : Ascii.ascii) : option Z :=
  let n := Ascii.nat_of_ascii c in
  if (48 <=? n)%nat && (n <=? 57)%nat then Some (Z.of_nat n - 48)%Z else None.

Fixpoint parse_digits (s : string) (acc : Z) : option Z :=
  match s with
  | String c s' =>
      match digit_of c with
      | Some d => parse_digits s' (10 * acc + d)%Z
      | None => None
      end
  | EmptyString => Some acc
  end.

(** [int(s)] on ASCII decimal text with an optional sign; [None] is
    [ValueError]. *)
Definition py_int (s : string) : option Z :=
  match strip s with
  | EmptyString => None
  | String c s' =>
      let n := Ascii.nat_of_ascii c in
      if (n =? 45)%nat then
        match s' with
        | EmptyString => None
        | _ => Z.opp <$> parse_digits s' 0
        end
      else if (n =? 43)%nat then
        match s' with
        | EmptyString => None
        | _ => parse_digits s' 0
        end
      else parse_digits (String c s') 0
  end.

(** The [while True] loop, one prompt per element of [inputs]. *)
Fixpoint select_loop (journeys : list raw_journey) (inputs : list user_input)
    (self : calculator) : outcome (option journey_result) * calculator :=
  match inputs with
  | Line s :: rest =>
      let choice := strip s in
      if String.eqb (lower choice) "q" then (Returned None, self)
      else
        match py_int choice with
        | Some choice_num =>
            if ((1 <=? choice_num) && (choice_num <=? Z.of_nat (length journeys)))%Z then
              match journeys !! Z.to_nat (choice_num - 1) with
              | Some selected_journey =>
                  let result := journey_result_of selected_journey in
                  (Returned (Some result), set_last_journey result self)
              | None => select_loop journeys rest self
              end
            else select_loop journeys rest self
        | None => select_loop journeys rest self
        end
  | KeyboardInterrupt :: _ => (Returned None, self)
  | [] => (RaisedEOFError, self)
  end.

Definition select_journey_option (E : env) (from_location to_location : string)
    (kwargs : options) (inputs : list user_input) (self : calculator)
    : outcome (option journey_result) * calculator :=
  let '(journeys, self) :=
    get_all_journey_options E from_location to_location kwargs self in
  match journeys with
  | Some (j :: js) => select_loop (j :: js) inputs self
  | Some [] | None => (Returned None, self)
  end.

(** *** [print_journey_instructions] and [visualize_journey] *)

(** [journey.get('raw_data', {}).get('legs', [])]. *)
Definition result_legs (journey : journey_result) : list raw_leg :=
  match r_raw_data journey with
  | Some (RawJourneyData j) => journey_legs j
  | Some (RawResponse _) | None => []
  end.

(** What the two presentation operations do, by the guard they stop at; the
    text printed and the map written are represented by the journey and the
    legs they are rendered from. *)
Inductive rendering :=
| NoJourneyData
| NotSuccessful (error : string)
| NoLegs
| Rendered (journey : journey_result) (legs : list raw_leg).

(** [if journey is None: journey = self.last_journey]. *)
Definition journey_or_cached (journey : option journey_result) (self : calculator)
    : option journey_result :=
  match journey with
  | Some j => Some j
  | None => last_journey self
  end.

Definition render_journey (journey : option journey_result) (self : calculator)
    : rendering :=
  match journey_or_cached journey self with
  | None => NoJourneyData
  | Some journey =>
      if negb (r_success journey)
      then NotSuccessful (default "Unknown error" (r_error journey))
      else
        match result_legs journey with
        | [] => NoLegs
        | legs => Rendered journey legs
        end
  end.

Definition print_journey_instructions (journey : option journey_result)
    (self : calculator) : rendering :=
  render_journey journey self.

(** Returns [output_file] when the map is written, else [None]. *)
Definition visualize_journey (journey : option journey_result) (output_file : string)
    (self : calculator) : option string * rendering :=
  match render_journey journey self with
  | Rendered j legs => (Some output_file, Rendered j legs)
  | r => (None, r)
  end.

(** *** [calculate_monthly_commute_cost] *)

(** The estimate dictionary. *)
Record cost_estimate := CostEstimate {
  c_success : bool;
  single_fare : num;
  daily_cost : num;
  weekly_cost : num;
  monthly_cost : num;
  monthly_cost_with_cap : num;
  annual_cost : num;
  c_duration_minutes : option Z;
  journey_info : journey_result;
  warning : option string
}.

(** The dictionary returned: a failure dictionary ([return journey], or the
    "No journey data available" one), or the estimate. *)
Inductive cost_result :=
| Failure (d : journey_result)
| Estimate (e : cost_estimate).

(** [x or 0]. *)
Definition or_zero (o : option num) : num :=
  match o with
  | Some x => if truthy_num x then x else lit 0
  | None => lit 0
  end.

(** The single fare used, from [fare = journey.get('fare', {})]. *)
Definition resolve_single_fare (fare : fare_info) : num :=
  let single_fare := or_zero (total_cost fare) in
  if bool_decide (single_fare = lit 0) then
    if truthy (off_peak_single fare) then default single_fare (off_peak_single fare)
    else if truthy (peak_single fare) then default single_fare (peak_single fare)
    else single_fare
  else single_fare.

(** Everything after the [success] guard. *)
Definition estimate_costs (journey : journey_result) (days_per_week : Z)
    : cost_estimate :=
  let fare := default empty_fare_info (r_fare journey) in
  let single_fare := resolve_single_fare fare in
  let fare_warning :=
    if bool_decide (single_fare = lit 0)
    then Some "⚠ Fare information not available from TfL API. Cost estimates will be £0."
    else None in
  let daily_cost := single_fare * lit 2 in
  let weekly_cost := daily_cost * lit (inject_Z days_per_week) in
  let monthly_cost := weekly_cost * lit 4.33 in
  let annual_cost := monthly_cost * lit 12 in
  let daily_cap := single_fare * lit 2.5 in
  let monthly_cap := daily_cap * lit 20 in
  CostEstimate true single_fare daily_cost weekly_cost monthly_cost
    (py_min monthly_cost monthly_cap) annual_cost
    (r_duration_minutes journey) journey fare_warning.

(** The journey the estimate is made for: the argument, a new query when
    both locations are given, the cached journey, or nothing. *)
Definition cost_journey (E : env) (from_location to_location : option string)
    (journey : option journey_result) (self : calculator)
    : option journey_result * calculator :=
  match journey with
  | Some j => (Some j, self)
  | None =>
      if truthy_str from_location && truthy_str to_location then
        let '(j, self) :=
          get_tfl_journey E (default "" from_location) (default "" to_location)
            None false None None None None self in
        (Some j, self)
      else
        match last_journey self with
        | Some j => (Some j, self)
        | None => (None, self)
        end
  end.

Definition calculate_monthly_commute_cost (E : env)
    (from_location to_location : option string) (days_per_week : Z)
    (use_travelcard : bool) (journey : option journey_result)
    (self : calculator) : cost_result * calculator :=
  match cost_journey E from_location to_location journey self with
  | (None, self) =>
      (Failure (error_result
         "No journey data available. Either provide from/to locations or call get_tfl_journey() first."),
       self)
  | (Some journey, self) =>
      if negb (r_success journey) then (Failure journey, self)
      else (Estimate (estimate_costs journey days_per_week), self)
  end.

(** ** Road router *)

Inductive osrm_result :=
| OsrmSuccess (distance_km distance_miles duration_minutes duration_hours : num)
    (profile : string)
| OsrmFailure (error : string).

Definition osrm_route_request (self : calculator) (from_coords to_coords : num * num)
    (profile : string) : osrm_request :=
  OsrmRequest (osrm_base_url self) profile from_coords to_coords
    [("overview", "false"); ("steps", "false")].

Definition get_osrm_route (E : env) (from_coords to_coords : num * num)
    (profile : string) (self : calculator) : osrm_result * calculator :=
  let req := osrm_route_request self from_coords to_coords profile in
  let self := log_request (OsrmGet req) self in
  match osrm_get E req with
  | inr data =>
      match code data, routes data with
      | Some c, Some (route :: _) =>
          if String.eqb c "Ok" then
            (OsrmSuccess (distance route / lit 1000) (distance route / lit 1609.34)
               (route_duration route / lit 60) (route_duration route / lit 3600)
               profile, self)
          else (OsrmFailure "No route found", self)
      | _, _ => (OsrmFailure "No route found", self)
      end
  | inl e => (OsrmFailure ("OSRM request failed: " ++ exc_str e), self)
  end.

(** * Specification-side definitions and example inputs *)

(** The total taken from the first fare element: a positive [lowZone], else
    a positive [highZone], else nothing. *)
Definition zone_total (first_fare : raw_fare) : option num :=
  match lowZone first_fare with
  | Some l =>
      if positive_num l then Some (l / lit 100)
      else match highZone first_fare with
           | Some h => if positive_num h then Some (h / lit 100) else None
           | None => None
           end
  | None =>
      match highZone first_fare with
      | Some h => if positive_num h then Some (h / lit 100) else None
      | None => None
      end
  end.

(** The journey of the second testable property: [totalCost = 0] and
    [fares = [{lowZone: 180, highZone: 220}]]. *)
Definition fallback_fare_block : raw_fare_block :=
  RawFareBlock (Some (lit 0)) (Some [RawFare (Some (lit 180)) (Some (lit 220))]) None.

Definition fallback_journey : raw_journey :=
  RawJourney None None None None (Some fallback_fare_block).


(** The journeys of the third testable property. *)
Definition leg_between (dep arr : string) : raw_leg :=
  RawLeg (Some "tube") (Some (RawPoint (Some dep) None None))
    (Some (RawPoint (Some arr) None None)) (Some 5%Z).

Definition kings_cross_journey : raw_journey :=
  RawJourney (Some 12%Z) None None
    (Some [leg_between "Kings Cross" "Euston"; leg_between "Euston" "Oxford Circus"])
    None.

Definition kings_cross_variant : raw_journey :=
  RawJourney (Some 15%Z) None None
    (Some [leg_between " kings cross" "Warren Street";
           leg_between "Warren Street" "OXFORD CIRCUS  "])
    None.

Definition no_legs_journey : raw_journey :=
  RawJourney (Some 9%Z) None None (Some []) None.

(** The single fare as the specification words it: each candidate is used
    "if positive". *)
Definition positive_or (o : option num) (otherwise : num) : num :=
  match o with
  | Some x => if positive_num x then x else otherwise
  | None => otherwise
  end.

Definition single_fare_if_positive (fare : fare_info) : num :=
  positive_or (total_cost fare)
    (positive_or (off_peak_single fare)
       (positive_or (peak_single fare) (lit 0))).

(** The same resolution with "present and not zero" in place of
    "positive". *)
Definition nonzero_or (o : option num) (otherwise : num) : num :=
  match o with
  | Some x => if truthy_num x then x else otherwise
  | None => otherwise
  end.

Definition single_fare_if_nonzero (fare : fare_info) : num :=
  nonzero_or (total_cost fare)
    (nonzero_or (off_peak_single fare)
       (nonzero_or (peak_single fare) (lit 0))).

Definition fare_warning_text : string :=
  "⚠ Fare information not available from TfL API. Cost estimates will be £0.".

Definition credentials_missing_text : string :=
  "TfL API key not found. Set TFL_APP_KEY in .env file".

(** A journey whose only fare datum is a negative [lowZone]. *)
Definition negative_low_zone_journey : raw_journey :=
  RawJourney (Some 30%Z) None None
    (Some [leg_between "Ilford" "Moorgate"])
    (Some (RawFareBlock None (Some [RawFare (Some (lit (-5))) None]) None)).

(** A journey with [totalCost = 280]. *)
Definition fare_280_journey : raw_journey :=
  RawJourney (Some 42%Z) None None
    (Some [leg_between "Ilford" "Moorgate"])
    (Some (RawFareBlock (Some (lit 280)) None None)).

(** Three worlds: the service times out, answers with no journey, answers
    with one journey. *)
Definition timeout_env : env :=
  Env (λ _, inl (ReadTimeout "Read timed out."))
      (λ _, inl (ReadTimeout "Read timed out.")) "20251115".

Definition no_journeys_env : env :=
  Env (λ _, inr (TflData (Some [])))
      (λ _, inr (OsrmData (Some "NoRoute") (Some []))) "20251115".

Definition one_journey_env : env :=
  Env (λ _, inr (TflData (Some [kings_cross_journey])))
      (λ _, inr (OsrmData (Some "Ok") (Some [OsrmRoute (lit 4200) (lit 780)])))
      "20251115".

(** A calculator with a key and one without. *)
Definition keyed : calculator := __init__ (Some "k3y") None.
Definition unkeyed : calculator := __init__ None None.


(** A failed result, as [get_tfl_journey] caches it after a timeout. *)
Definition timed_out_result : journey_result :=
  error_result "API request failed: Read timed out.".

(** * Presentation helpers and the dashboard *)

(** ** The option table of [select_journey_option] and
       [print_all_journey_options] *)

(** [leg.get('mode', {}).get('name', 'unknown')]. *)
Definition leg_mode_name (leg : raw_leg) : string :=
  default "unknown" (mode_name leg).

(** [leg.get('departurePoint', {}).get('commonName', 'Unknown')]. *)
Definition dep_name (leg : raw_leg) : string :=
  default "Unknown" (commonName (default empty_point (departurePoint leg))).

(** [leg.get('arrivalPoint', {}).get('commonName', 'Unknown')]. *)
Definition arr_name (leg : raw_leg) : string :=
  default "Unknown" (commonName (default empty_point (arrivalPoint leg))).

(** What one iteration of [for j, leg in enumerate(legs)] appends to
    [route_summary]. *)
Definition summary_step (j : nat) (leg : raw_leg) : list string :=
  (if (j =? 0)%nat then [dep_name leg] else [])
  ++ [("[" ++ leg_mode_name leg ++ "]")%string; arr_name leg].

Definition route_summary (legs : list raw_leg) : list string :=
  concat (imap summary_step legs).

(** [sep.join(parts)]. *)
Fixpoint join (sep : string) (parts : list string) : string :=
  match parts with
  | [] => EmptyString
  | [p] => p
  | p :: rest => (p ++ sep ++ join sep rest)%string
  end.

(** [" → ".join(route_summary)]. *)
Definition route_str (legs : list raw_leg) : string :=
  join " → " (route_summary legs).

(** ['T' in s]. *)
Fixpoint contains_T (s : string) : bool :=
  match s with
  | String c s' => (Ascii.nat_of_ascii c =? 84)%nat || contains_T s'
  | EmptyString => false
  end.

(** The text after the first ['T'], up to the next one: [s.split('T')[1]]
    for a string that contains ['T']. *)
Fixpoint until_T (s : string) : string :=
  match s with
  | String c s' =>
      if (Ascii.nat_of_ascii c =? 84)%nat then EmptyString else String c (until_T s')
  | EmptyString => EmptyString
  end.

Fixpoint after_first_T (s : string) : string :=
  match s with
  | String c s' =>
      if (Ascii.nat_of_ascii c =? 84)%nat then until_T s' else after_first_T s'
  | EmptyString => EmptyString
  end.

(** [s[:n]]. *)
Fixpoint take_chars (n : nat) (s : string) : string :=
  match n, s with
  | S n', String c s' => String c (take_chars n' s')
  | _, _ => EmptyString
  end.

(** [s.split('T')[1][:5] if 'T' in s else s], the clock time shown for
    [startDateTime] and [arrivalDateTime]. *)
Definition short_time (s : string) : string :=
  if contains_T s then take_chars 5 (after_first_T s) else s.

(** ** The map of [visualize_journey] *)

(** The palette [mode_colors]. *)
Definition mode_colors : gmap string string :=
  list_to_map
    [("tube", "#003688"); ("bus", "#DC241F"); ("walking", "#00A575");
     ("dlr", "#00A575"); ("overground", "#EE7C0E"); ("national-rail", "#0019A8");
     ("tram", "#66CC00"); ("cycle", "#0098D4"); ("river-bus", "#00AFE8")].

(** [mode_colors.get(mode_name.lower(), '#666666')]. *)
Definition leg_color (leg : raw_leg) : string :=
  default "#666666" (mode_colors !! lower (leg_mode_name leg)).

(** [[lat, lon]] of a point when [lat and lon] is truthy. *)
Definition point_coords (p : option raw_point) : option (num * num) :=
  match lat (default empty_point p), lon (default empty_point p) with
  | Some la, Some lo => if truthy_num la && truthy_num lo then Some (la, lo) else None
  | _, _ => None
  end.

(** The points one leg appends to [all_coords]: its departure, then its
    arrival. *)
Definition leg_coords (leg : raw_leg) : list (num * num) :=
  option_list (point_coords (departurePoint leg))
  ++ option_list (point_coords (arrivalPoint leg)).

(** [all_coords], which the map is fitted to when it is not empty. *)
Definition all_coords (legs : list raw_leg) : list (num * num) :=
  legs ≫= leg_coords.

(** The START marker: set on the first leg only, when its departure point
    has coordinates. *)
Definition start_marker (legs : list raw_leg) : option (num * num * string) :=
  match legs with
  | first_leg :: _ =>
      match point_coords (departurePoint first_leg) with
      | Some c => Some (c, dep_name first_leg)
      | None => None
      end
  | [] => None
  end.

(** ** The dashboard ([app.py]) *)

(** [st.session_state]. *)
Record session := Session {
  ss_calculator : calculator;
  ss_journey_result : option journey_result;
  ss_all_journeys : option (list raw_journey)
}.

(** The first run of the script: [getenv] is the value of [TFL_APP_KEY]. *)
Definition session_init (getenv : option string) : session :=
  Session (__init__ None getenv) None None.

(** [mode_param] for the label chosen in "Transport Mode". *)
Definition mode_param (transport_mode : string) : option string :=
  if String.eqb transport_mode "Tube only" then Some "tube"
  else if String.eqb transport_mode "Bus only" then Some "bus"
  else if String.eqb transport_mode "Walking" then Some "walking"
  else None.

(** [pref_param] for the label chosen in "Journey Preference". *)
Definition pref_param (journey_preference : string) : option string :=
  if String.eqb journey_preference "Least time" then Some "leasttime"
  else if String.eqb journey_preference "Least interchange" then Some "leastinterchange"
  else if String.eqb journey_preference "Least walking" then Some "leastwalking"
  else None.

(** [kwargs] of the dashboard's query. *)
Definition dashboard_kwargs (transport_mode journey_preference : string) : options :=
  Options (if truthy_str (mode_param transport_mode) then mode_param transport_mode else None)
    None
    (if truthy_str (pref_param journey_preference) then pref_param journey_preference
     else None)
    None None false.

(** The block run when "Calculate Route" is pressed; the second component
    is the text given to [st.error], if any.  The two text inputs are
    stripped first. *)
Definition on_calculate (E : env) (from_input to_input : string)
    (transport_mode journey_preference : string) (st : session)
    : session * option string :=
  let from_postcode := strip from_input in
  let to_postcode := strip to_input in
  if negb (truthy_str (Some from_postcode)) || negb (truthy_str (Some to_postcode))
  then (st, Some "Please enter both home and office postcodes")
  else
    let '(journeys, calc) :=
      get_all_journey_options E from_postcode to_postcode
        (dashboard_kwargs transport_mode journey_preference) (ss_calculator st) in
    match journeys with
    | Some (first_journey :: rest) =>
        let result := journey_result_of first_journey in
        (Session (set_last_journey result calc) (Some result)
           (Some (first_journey :: rest)), None)
    | Some [] | None =>
        (Session calc None None,
         Some "No journey options found. Please check your postcodes and try again.")
    end.

(** The journey-option selector: shown when a successful result and more
    than one option are in the session; [selected_option] is the index the
    select box returns, one of [range(len(all_journeys))]. *)
Definition on_select (selected_option : nat) (st : session) : session :=
  match ss_journey_result st with
  | Some journey =>
      if r_success journey then
        match ss_all_journeys st with
        | Some all_journeys =>
            if (1 <? length all_journeys)%nat then
              match all_journeys !! selected_option with
              | Some selected_journey =>
                  let result := journey_result_of selected_journey in
                  Session (set_last_journey result (ss_calculator st)) (Some result)
                    (Some all_journeys)
              | None => st
              end
            else st
        | None => st
        end
      else st
  | None => st
  end.

(** Whether the "Monthly Cost" metric shows an amount rather than "N/A":
    [monthly.get('success') and monthly.get('monthly_cost_with_cap', 0) > 0]
    for [monthly = calculate_monthly_commute_cost(journey=journey)]. *)
Definition monthly_metric_shown (E : env) (journey : journey_result)
    (self : calculator) : bool :=
  match (calculate_monthly_commute_cost E None None 5 true (Some journey) self).1 with
  | Estimate e => c_success e && positive_num (monthly_cost_with_cap e)
  | Failure d => false
  end.

(** ** Predicates used in the statements *)

(** The string contains a space. *)
Fixpoint has_space (s : string) : bool :=
  match s with
  | String c s' => (Ascii.nat_of_ascii c =? 32)%nat || has_space s'
  | EmptyString => false
  end.

(** Every character is white space. *)
Fixpoint all_space (s : string) : bool :=
  match s with
  | String c s' => is_space c && all_space s'
  | EmptyString => true
  end.

(** A journey whose fare block has nothing usable. *)
Definition no_fare_journey : raw_journey :=
  RawJourney (Some 25%Z) (Some "2025-11-15T08:30:00") (Some "2025-11-15T08:55:00")
    (Some [leg_between "Ilford" "Stratford"; leg_between "Stratford" "Moorgate"])
    None.

(** A second option to the same destination from another station. *)
Definition stratford_journey : raw_journey :=
  RawJourney (Some 20%Z) None None
    (Some [leg_between "Stratford" "Oxford Circus"])
    (Some (RawFareBlock (Some (lit 340)) None None)).

Definition two_options_env : env :=
  Env (λ _, inr (TflData (Some [kings_cross_journey; kings_cross_variant;
                                stratford_journey])))
      (λ _, inl (ConnectionError "Connection refused")) "20251115".

(** * Properties *)

(** ** Numbers *)

Lemma lit_100_nonzero : lit 100 ≠ lit 0.
Proof. intros H. apply (f_equal this) in H. discriminate H. Qed.

Lemma positive_nonzero (x : num) : lit 0 < x → x ≠ lit 0.
Proof. intros Hpos ->. exact (Qcle_not_lt _ _ (Qcle_refl _) Hpos). Qed.

Lemma pence_to_pounds_nonzero (x : num) : x ≠ lit 0 → x / lit 100 ≠ lit 0.
Proof.
  intros Hx Hq. apply Hx.
  rewrite <- (Qcmult_div_r x (lit 100) lit_100_nonzero), Hq.
  apply Qcmult_0_r.
Qed.

Lemma truthy_num_true (x : num) : truthy_num x = true ↔ x ≠ lit 0.
Proof. unfold truthy_num. apply bool_decide_eq_true. Qed.

Lemma positive_num_true (x : num) : positive_num x = true ↔ lit 0 < x.
Proof. unfold positive_num. apply bool_decide_eq_true. Qed.

Lemma positive_num_false (x : num) : positive_num x = false ↔ ¬ lit 0 < x.
Proof. unfold positive_num. apply bool_decide_eq_false. Qed.

Lemma positive_truthy (x : num) : positive_num x = true → truthy_num x = true.
Proof.
  rewrite positive_num_true, truthy_num_true. apply positive_nonzero.
Qed.

(** ** Fare extraction *)

(** Without a positive [totalCost], the first step leaves the dictionary
    as it was. *)
Lemma fare_from_total_skip (fare_data : raw_fare_block) (fi : fare_info) :
  (∀ tc, totalCost fare_data = Some tc → ¬ lit 0 < tc) →
  fare_from_total fare_data fi = fi.
Proof.
  intros Hno. unfold fare_from_total.
  destruct (totalCost fare_data) as [tc|] eqn:Htc; [|done].
  specialize (Hno tc eq_refl). apply positive_num_false in Hno.
  rewrite Hno. by rewrite andb_false_r.
Qed.

Lemma fare_try_zones_total (first_fare : raw_fare) :
  total_cost (fare_try_zones first_fare empty_fare_info) = zone_total first_fare.
Proof.
  unfold fare_try_zones, fare_try_high, zone_total.
  destruct (lowZone first_fare) as [l|], (highZone first_fare) as [h|]; simpl;
    repeat case_match; done.
Qed.

Lemma fare_store_both_fields (first_fare : raw_fare) (fi : fare_info) :
  (peak_single fi = None ∨ peak_single fi = (λ h, h / lit 100) <$> highZone first_fare) →
  (off_peak_single fi = None ∨ off_peak_single fi = (λ l, l / lit 100) <$> lowZone first_fare) →
  (off_peak_single fi ≠ None → lowZone first_fare ≠ None) →
  (peak_single fi ≠ None → highZone first_fare ≠ None) →
  let fi' := fare_store_both first_fare fi in
  total_cost fi' = total_cost fi ∧
  peak_single fi' = (λ h, h / lit 100) <$> highZone first_fare ∧
  off_peak_single fi' = (λ l, l / lit 100) <$> lowZone first_fare ∧
  zones fi' = zones fi.
Proof.
  intros Hp Ho Hol Hph. unfold fare_store_both.
  destruct (lowZone first_fare) as [l|], (highZone first_fare) as [h|]; simpl;
    repeat split; try done.
  - destruct Hp as [Hp|Hp]; [|done]. destruct (peak_single fi); [|done].
    by destruct Hph.
  - destruct Ho as [Ho|Ho]; [|done]. destruct (off_peak_single fi); [|done].
    by destruct Hol.
  - destruct Hp as [Hp|Hp]; [|done]. destruct (peak_single fi); [|done].
    by destruct Hph.
  - destruct Ho as [Ho|Ho]; [|done]. destruct (off_peak_single fi); [|done].
    by destruct Hol.
Qed.

Lemma fare_try_zones_singles (first_fare : raw_fare) :
  let fi := fare_try_zones first_fare empty_fare_info in
  (peak_single fi = None ∨ peak_single fi = (λ h, h / lit 100) <$> highZone first_fare) ∧
  (off_peak_single fi = None ∨ off_peak_single fi = (λ l, l / lit 100) <$> lowZone first_fare) ∧
  (off_peak_single fi ≠ None → lowZone first_fare ≠ None) ∧
  (peak_single fi ≠ None → highZone first_fare ≠ None) ∧
  zones fi = None.
Proof.
  unfold fare_try_zones, fare_try_high.
  destruct (lowZone first_fare) as [l|], (highZone first_fare) as [h|]; simpl;
    repeat case_match; simpl; naive_solver.
Qed.

Lemma fare_zones_fields (fare_data : raw_fare_block) (fi : fare_info) :
  total_cost (fare_zones fare_data fi) = total_cost fi ∧
  peak_single (fare_zones fare_data fi) = peak_single fi ∧
  off_peak_single (fare_zones fare_data fi) = off_peak_single fi.
Proof. unfold fare_zones. by destruct (caveatText fare_data). Qed.

(** C1. Without a positive [totalCost] and with a non-empty [fares] list,
    [total_cost] is taken from a positive [lowZone] of the first element,
    else from a positive [highZone]; [peak_single] is [highZone / 100]
    whenever [highZone] is present and [off_peak_single] is [lowZone / 100]
    whenever [lowZone] is present, the later assignments leaving
    [total_cost] as it was. *)
Theorem extract_fare_breakdown
    (journey : raw_journey) (fare_data : raw_fare_block)
    (first_fare : raw_fare) (rest : list raw_fare) :
  fare journey = Some fare_data →
  (∀ tc, totalCost fare_data = Some tc → ¬ lit 0 < tc) →
  fares fare_data = Some (first_fare :: rest) →
  total_cost (_extract_fare journey) = zone_total first_fare ∧
  peak_single (_extract_fare journey) = (λ h, h / lit 100) <$> highZone first_fare ∧
  off_peak_single (_extract_fare journey) = (λ l, l / lit 100) <$> lowZone first_fare ∧
  total_cost (_extract_fare journey)
    = total_cost (fare_try_zones first_fare empty_fare_info).
Proof.
  intros Hfare Hno Hfares. unfold _extract_fare. rewrite Hfare.
  rewrite (fare_from_total_skip _ _ Hno).
  unfold fare_from_breakdown. simpl. rewrite Hfares.
  destruct (fare_zones_fields fare_data
              (fare_store_both first_fare (fare_try_zones first_fare empty_fare_info)))
    as (-> & -> & ->).
  destruct (fare_try_zones_singles first_fare) as (Hp & Ho & Hol & Hph & _).
  destruct (fare_store_both_fields first_fare _ Hp Ho Hol Hph) as (Ht & Hp' & Ho' & _).
  rewrite Ht, Hp', Ho'. by rewrite fare_try_zones_total.
Qed.

Lemma lit_eq (p q : Q) : Qeq p q → lit p = lit q.
Proof. intros H. apply Qc_is_canon. simpl. by rewrite H. Defined.

Lemma extract_fare_breakdown_witness :
  total_cost (_extract_fare fallback_journey) = Some (lit 1.80) ∧
  off_peak_single (_extract_fare fallback_journey) = Some (lit 1.80) ∧
  peak_single (_extract_fare fallback_journey) = Some (lit 2.20).
Proof.
  assert (Hno : ∀ tc, totalCost fallback_fare_block = Some tc → ¬ lit 0 < tc).
  { intros tc [= <-]. apply Qcle_not_lt, Qcle_refl. }
  destruct (extract_fare_breakdown fallback_journey fallback_fare_block
              (RawFare (Some (lit 180)) (Some (lit 220))) [] eq_refl Hno eq_refl)
    as (Ht & Hp & Ho & _).
  rewrite Ht, Hp, Ho. simpl.
  split; [|split]; f_equal; by apply Qc_is_canon.
Defined.



(** ** The duplicate-route filter *)

Lemma journey_key_legs (j : raw_journey) :
  journey_key j = None ↔ journey_legs j = [].
Proof. unfold journey_key. by destruct (journey_legs j). Qed.

(** One iteration, read through [journey_key]. *)
Lemma dedup_step_key (acc : list raw_journey * gset route_key_t) (j : raw_journey) :
  dedup_step acc j =
    match journey_key j with
    | Some k => if bool_decide (k ∈ acc.2) then acc else (acc.1 ++ [j], {[k]} ∪ acc.2)
    | None => acc
    end.
Proof. unfold dedup_step, journey_key. by destruct (journey_legs j). Qed.

(** Loop invariant: [seen_routes] holds the keys of the journeys read so
    far, and [filtered_journeys] grows by the first journey of each new key. *)
Lemma dedup_loop_invariant (js earlier filtered : list raw_journey)
    (seen : gset route_key_t) :
  (∀ k, k ∈ seen ↔ Some k ∈ journey_key <$> earlier) →
  (foldl dedup_step (filtered, seen) js).1 = filtered ++ first_per_key earlier js.
Proof.
  revert earlier filtered seen.
  induction js as [|j js IH]; intros earlier filtered seen Hseen; simpl.
  - by rewrite app_nil_r.
  - rewrite dedup_step_key. simpl.
    destruct (journey_key j) as [k|] eqn:Hk.
    + destruct (bool_decide (k ∈ seen)) eqn:Hin.
      * apply bool_decide_eq_true in Hin.
        rewrite (bool_decide_eq_true_2 _ (proj1 (Hseen k) Hin)).
        apply IH. intros k'. rewrite fmap_app, elem_of_app, Hseen. simpl.
        rewrite list_elem_of_singleton. split; [by left|].
        intros [?|Heq]; [done|]. rewrite Hk in Heq. injection Heq as ->.
        by apply Hseen.
      * apply bool_decide_eq_false in Hin.
        rewrite bool_decide_eq_false_2 by (by rewrite <- Hseen).
        rewrite (IH (earlier ++ [j]) (filtered ++ [j]) ({[k]} ∪ seen)).
        { by rewrite <- app_assoc. }
        intros k'. rewrite fmap_app, elem_of_app, elem_of_union, elem_of_singleton.
        simpl. rewrite list_elem_of_singleton, <- Hseen, Hk. naive_solver.
    + apply IH. intros k'. rewrite fmap_app, elem_of_app, Hseen. simpl.
      rewrite list_elem_of_singleton, Hk. naive_solver.
Qed.

Lemma filter_duplicate_routes_spec (js : list raw_journey) :
  filter_duplicate_routes js = first_per_key [] js.
Proof.
  unfold filter_duplicate_routes.
  rewrite (dedup_loop_invariant js [] [] ∅); [done|].
  intros k. simpl. rewrite elem_of_nil. set_solver.
Qed.


Lemma first_per_key_app (l1 l2 earlier : list raw_journey) :
  first_per_key earlier (l1 ++ l2)
  = first_per_key earlier l1 ++ first_per_key (earlier ++ l1) l2.
Proof.
  revert earlier. induction l1 as [|j l1 IH]; intros earlier; simpl.
  - by rewrite app_nil_r.
  - rewrite IH, <- app_assoc. simpl. by repeat case_match.
Qed.

Lemma first_per_key_sublist (js earlier : list raw_journey) :
  first_per_key earlier js `sublist_of` js.
Proof.
  revert earlier. induction js as [|j js IH]; intros earlier; simpl; [done|].
  repeat case_match; by constructor.
Qed.

Lemma first_per_key_elem (js earlier : list raw_journey) (j : raw_journey) :
  j ∈ first_per_key earlier js →
  j ∈ js ∧ journey_key j ≠ None ∧ journey_key j ∉ journey_key <$> earlier.
Proof.
  revert earlier. induction js as [|x js IH]; intros earlier; simpl.
  - by rewrite elem_of_nil.
  - assert (Hrec : j ∈ first_per_key (earlier ++ [x]) js →
                   j ∈ x :: js ∧ journey_key j ≠ None
                   ∧ journey_key j ∉ journey_key <$> earlier).
    { intros Hin. destruct (IH _ Hin) as (? & ? & Hn). split_and!; [by right|done|].
      intros Hin'. apply Hn. rewrite fmap_app, elem_of_app. by left. }
    destruct (journey_key x) as [k|] eqn:Hk; [|done].
    case_bool_decide as Hdec; [done|].
    rewrite elem_of_cons. intros [->|Hin]; [|by apply Hrec].
    rewrite Hk. split_and!; [by left|done|done].
Qed.

Lemma first_per_key_NoDup (js earlier : list raw_journey) :
  NoDup (journey_key <$> first_per_key earlier js).
Proof.
  revert earlier. induction js as [|x js IH]; intros earlier; simpl.
  - constructor.
  - destruct (journey_key x) as [k|] eqn:Hk; [|done].
    case_bool_decide; [done|]. simpl. constructor; [|done].
    rewrite list_elem_of_fmap. intros (j & Hj & Hin).
    apply first_per_key_elem in Hin as (_ & _ & Hn). apply Hn.
    rewrite fmap_app, elem_of_app. right. simpl.
    rewrite list_elem_of_singleton. congruence.
Qed.





(** The third testable property: two journeys whose end points differ in
    case and surrounding blanks only collapse to the first. *)
Example dedup_kings_cross :
  filter_duplicate_routes [kings_cross_journey; kings_cross_variant]
  = [kings_cross_journey].
Proof. vm_compute. reflexivity. Qed.

Example dedup_zero_legs :
  filter_duplicate_routes [no_legs_journey; kings_cross_journey]
  = [kings_cross_journey]
  ∧ journey_options_of_data (TflData (Some [no_legs_journey])) = None
  ∧ journey_options_of_data (TflData (Some [])) = None.
Proof. vm_compute. done. Qed.

(** ** Cost estimation *)

Lemma or_zero_nonzero_or (o : option num) : or_zero o = nonzero_or o (lit 0).
Proof. done. Qed.

Lemma resolve_single_fare_nonzero (fare : fare_info) :
  resolve_single_fare fare = single_fare_if_nonzero fare.
Proof.
  unfold resolve_single_fare, single_fare_if_nonzero, or_zero, nonzero_or, truthy.
  destruct (total_cost fare) as [t|], (off_peak_single fare) as [o|],
    (peak_single fare) as [p|]; simpl;
    repeat (case_match; simpl; try done);
    repeat match goal with
    | H : bool_decide _ = true |- _ => apply bool_decide_eq_true in H
    | H : bool_decide _ = false |- _ => apply bool_decide_eq_false in H
    | H : truthy_num _ = true |- _ => apply truthy_num_true in H
    end; congruence.
Qed.

Lemma nonzero_or_positive_or (o : option num) (a : num) :
  (∀ x, o = Some x → lit 0 <= x) → nonzero_or o a = positive_or o a.
Proof.
  intros Hnn. destruct o as [x|]; [|done]. simpl.
  unfold truthy_num, positive_num.
  destruct (Qcle_lt_or_eq _ _ (Hnn x eq_refl)) as [Hlt| <-].
  - rewrite (bool_decide_eq_true_2 _ Hlt).
    by rewrite (bool_decide_eq_true_2 _ (positive_nonzero _ Hlt)).
  - rewrite bool_decide_eq_false_2 by (intros H; by apply H).
    by rewrite bool_decide_eq_false_2 by (apply Qcle_not_lt, Qcle_refl).
Qed.

(** On fares that are not negative, "not zero" and "positive" agree. *)
Lemma resolve_single_fare_positive (fare : fare_info) :
  (∀ x, total_cost fare = Some x → lit 0 <= x) →
  (∀ x, off_peak_single fare = Some x → lit 0 <= x) →
  (∀ x, peak_single fare = Some x → lit 0 <= x) →
  resolve_single_fare fare = single_fare_if_positive fare.
Proof.
  intros Ht Ho Hp. rewrite resolve_single_fare_nonzero.
  unfold single_fare_if_nonzero, single_fare_if_positive.
  by rewrite (nonzero_or_positive_or _ _ Hp), (nonzero_or_positive_or _ _ Ho),
    (nonzero_or_positive_or _ _ Ht).
Qed.



Lemma py_min_is_min (a b : num) :
  py_min a b <= a ∧ py_min a b <= b ∧ (py_min a b = a ∨ py_min a b = b).
Proof.
  unfold py_min. case_bool_decide as Hlt.
  - split_and!; [by apply Qclt_le_weak|apply Qcle_refl|by right].
  - split_and!; [apply Qcle_refl|by apply Qcnot_lt_le|by left].
Qed.


(** The fourth testable property, evaluated on a journey with
    [totalCost = 280] and the default five days a week. *)
Example cost_projection_280 :
  let e := estimate_costs (journey_result_of fare_280_journey) 5 in
  single_fare e = lit 2.80 ∧ daily_cost e = lit 5.60 ∧
  weekly_cost e = lit 28.00 ∧ monthly_cost e = lit 121.24 ∧
  monthly_cost_with_cap e = lit 121.24 ∧ annual_cost e = lit 1454.88 ∧
  warning e = None.
Proof.
  simpl. split_and!; try by apply Qc_is_canon. vm_compute. reflexivity.
Qed.

(** C10. A journey whose success flag is false, given as the argument or
    taken from the cache, is returned as it is: no estimate is built and
    the calculator is left as it was. *)
Theorem failed_journey_returned_unchanged (E : env)
    (from_location to_location : option string) (days_per_week : Z)
    (use_travelcard : bool) (journey : option journey_result)
    (self : calculator) (j : journey_result) :
  journey = Some j
  ∨ (journey = None
     ∧ truthy_str from_location && truthy_str to_location = false
     ∧ last_journey self = Some j) →
  r_success j = false →
  calculate_monthly_commute_cost E from_location to_location days_per_week
    use_travelcard journey self = (Failure j, self).
Proof.
  intros [->|(-> & Hloc & Hcache)] Hfail;
    unfold calculate_monthly_commute_cost, cost_journey.
  - by rewrite Hfail.
  - by rewrite Hloc, Hcache, Hfail.
Qed.

Lemma failed_journey_returned_unchanged_witness :
  calculate_monthly_commute_cost timeout_env None None 5 true
    (Some timed_out_result) keyed = (Failure timed_out_result, keyed)
  ∧ calculate_monthly_commute_cost timeout_env None None 5 true None
      (set_last_journey timed_out_result keyed)
    = (Failure timed_out_result, set_last_journey timed_out_result keyed).
Proof.
  split.
  - apply (failed_journey_returned_unchanged timeout_env None None 5 true
             (Some timed_out_result) keyed timed_out_result);
      [by left|reflexivity].
  - apply (failed_journey_returned_unchanged timeout_env None None 5 true
             None (set_last_journey timed_out_result keyed) timed_out_result);
      [right; by split_and!|reflexivity].
Defined.

(** ** Transit queries: failures *)

Lemma key_present_not_missing (self : calculator) :
  truthy_str (tfl_app_key self) = true → negb (truthy_str (tfl_app_key self)) = false.
Proof. by intros ->. Qed.

Lemma get_tfl_journey_keyed (E : env) (from_location to_location : string)
    (mode : option string) (time_is_arrival : bool)
    (via journey_preference time date : option string) (self : calculator) :
  truthy_str (tfl_app_key self) = true →
  let req := tfl_journey_request E self from_location to_location mode
               time_is_arrival via journey_preference time date in
  let result :=
    match tfl_get E req with
    | inr data => first_journey_result data
    | inl e => error_result ("API request failed: " ++ exc_str e)
    end in
  get_tfl_journey E from_location to_location mode time_is_arrival via
    journey_preference time date self
  = (result, set_last_journey result (log_request (TflGet req) self)).
Proof.
  intros Hkey. unfold get_tfl_journey. by rewrite (key_present_not_missing _ Hkey).
Qed.


Lemma first_journey_result_none (data : tfl_data) :
  default [] (journeys data) = [] →
  first_journey_result data = error_result_with_data "No journey found" data.
Proof.
  unfold first_journey_result. by destruct (journeys data) as [[|j js]|].
Qed.





(** ** Missing key *)

(** C7, as the code has it. Without a key no operation raises or sends a
    request (the calculator, with its request log, is returned as it was):
    [get_tfl_journey] and a cost estimate that has to query return the
    failure dictionary "TfL API key not found...", while
    [get_all_journey_options], [print_all_journey_options] and
    [select_journey_option] return [None]. *)
Theorem missing_key_no_request (E : env) (from_location to_location : string)
    (mode : option string) (time_is_arrival : bool)
    (via journey_preference time date : option string)
    (kwargs : options) (inputs : list user_input)
    (days_per_week : Z) (use_travelcard : bool) (self : calculator) :
  truthy_str (tfl_app_key self) = false →
  get_tfl_journey E from_location to_location mode time_is_arrival via
    journey_preference time date self
  = (error_result credentials_missing_text, self) ∧
  get_all_journey_options E from_location to_location kwargs self = (None, self) ∧
  print_all_journey_options E from_location to_location kwargs self = (None, self) ∧
  select_journey_option E from_location to_location kwargs inputs self
  = (Returned None, self) ∧
  (truthy_str (Some from_location) && truthy_str (Some to_location) = true →
   calculate_monthly_commute_cost E (Some from_location) (Some to_location)
     days_per_week use_travelcard None self
   = (Failure (error_result credentials_missing_text), self)).
Proof.
  intros Hkey.
  assert (Hget : get_all_journey_options E from_location to_location kwargs self
                 = (None, self)).
  { unfold get_all_journey_options. by rewrite Hkey. }
  split_and!.
  - unfold get_tfl_journey. by rewrite Hkey.
  - done.
  - unfold print_all_journey_options. by rewrite Hkey.
  - unfold select_journey_option. by rewrite Hget.
  - intros Hloc. unfold calculate_monthly_commute_cost, cost_journey.
    rewrite Hloc. simpl. unfold get_tfl_journey. by rewrite Hkey.
Qed.

Lemma missing_key_no_request_witness :
  get_tfl_journey one_journey_env "IG3 8EE" "EC2Y 5BL" None false None None None None
    unkeyed
  = (error_result credentials_missing_text, unkeyed)
  ∧ requests_log unkeyed = [].
Proof.
  split; [|reflexivity].
  exact (proj1 (missing_key_no_request one_journey_env "IG3 8EE" "EC2Y 5BL" None
                  false None None None None no_options [] 5 true unkeyed eq_refl)).
Defined.

(** C7, counterexample: without a key [get_all_journey_options] (and
    [select_journey_option] after it) returns the value it returns, with a
    key, when the service finds no journey. *)
Lemma missing_key_indistinguishable :
  (get_all_journey_options no_journeys_env "IG3 8EE" "EC2Y 5BL" no_options unkeyed).1
  = (get_all_journey_options no_journeys_env "IG3 8EE" "EC2Y 5BL" no_options keyed).1
  ∧ (get_all_journey_options no_journeys_env "IG3 8EE" "EC2Y 5BL" no_options unkeyed).1
    = None
  ∧ (select_journey_option no_journeys_env "IG3 8EE" "EC2Y 5BL" no_options
       [Line "1"] unkeyed).1
    = (select_journey_option no_journeys_env "IG3 8EE" "EC2Y 5BL" no_options
         [Line "1"] keyed).1.
Proof. split_and!; reflexivity. Qed.

(** ** The last-journey cache *)

Lemma select_loop_cache (journeys : list raw_journey) (inputs : list user_input)
    (self : calculator) :
  let '(out, self') := select_loop journeys inputs self in
  match out with
  | Returned (Some r) =>
      last_journey self' = Some r ∧ r_success r = true
      ∧ ∃ j, j ∈ journeys ∧ r = journey_result_of j
  | Returned None | RaisedEOFError => self' = self
  end.
Proof.
  induction inputs as [|[s|] inputs IH]; simpl; [done| |done].
  destruct (String.eqb (lower (strip s)) "q"); [done|].
  destruct (py_int (strip s)) as [n|]; [|exact IH].
  destruct ((1 <=? n)%Z && (n <=? Z.of_nat (length journeys))%Z); [|exact IH].
  destruct (journeys !! Z.to_nat (n - 1)) as [j|] eqn:Hj; [|exact IH].
  split_and!; [done|done|]. exists j. split; [|done].
  by apply list_elem_of_lookup_2 in Hj.
Qed.




(** A failed query overwrites a cached journey with its failure result. *)
Example failed_query_overwrites_cache :
  last_journey
    (get_tfl_journey timeout_env "IG3 8EE" "EC2Y 5BL" None false None None None None
       (set_last_journey (journey_result_of fare_280_journey) keyed)).2
  = Some timed_out_result.
Proof. reflexivity. Qed.

(** ** Road router *)

(** C9. A response with [code = "Ok"] and a non-empty [routes] list is a
    success carrying the first route's distance in kilometres and miles and
    its duration in minutes and hours; any other code, an empty or missing
    list, or a transport failure is a failure with a cause in words. *)
Theorem osrm_route_result (E : env) (from_coords to_coords : num * num)
    (profile : string) (self : calculator) :
  let req := osrm_route_request self from_coords to_coords profile in
  let result := (get_osrm_route E from_coords to_coords profile self).1 in
  (∀ data route rest,
     osrm_get E req = inr data → code data = Some "Ok" →
     routes data = Some (route :: rest) →
     result = OsrmSuccess (distance route / lit 1000) (distance route / lit 1609.34)
                (route_duration route / lit 60) (route_duration route / lit 3600)
                profile) ∧
  (∀ data, osrm_get E req = inr data → code data ≠ Some "Ok" →
     result = OsrmFailure "No route found") ∧
  (∀ data, osrm_get E req = inr data → default [] (routes data) = [] →
     result = OsrmFailure "No route found") ∧
  (∀ e, osrm_get E req = inl e →
     result = OsrmFailure ("OSRM request failed: " ++ exc_str e)).
Proof.
  simpl. unfold get_osrm_route. split_and!.
  - intros data route rest -> Hcode Hroutes. by rewrite Hcode, Hroutes.
  - intros data -> Hcode.
    destruct (code data) as [c|], (routes data) as [[|route rest]|]; try done.
    destruct (String.eqb c "Ok") eqn:Heq; [|done].
    apply String.eqb_eq in Heq. by subst.
  - intros data -> Hroutes.
    by destruct (code data) as [c|], (routes data) as [[|route rest]|].
  - by intros e ->.
Qed.

Example osrm_route_example :
  (get_osrm_route one_journey_env (lit (-0.1276), lit 51.5014)
     (lit (-0.0753), lit 51.5055) "driving" keyed).1
  = OsrmSuccess (lit 4.2) (lit 4200 / lit 1609.34) (lit 13) (lit 780 / lit 3600)
      "driving"
  ∧ (get_osrm_route no_journeys_env (lit (-0.1276), lit 51.5014)
       (lit (-0.0753), lit 51.5055) "driving" keyed).1
    = OsrmFailure "No route found"
  ∧ (get_osrm_route timeout_env (lit (-0.1276), lit 51.5014)
       (lit (-0.0753), lit 51.5055) "driving" keyed).1
    = OsrmFailure "OSRM request failed: Read timed out.".
Proof.
  split_and!; [|reflexivity|reflexivity].
  unfold get_osrm_route. simpl. f_equal; by apply Qc_is_canon.
Qed.

(** ** Worked runs *)

Example journey_request_example :
  tfl_journey_request one_journey_env keyed "IG3 8EE" "EC2Y 5BL" None false
    (Some "Liverpool Street") None (Some "0830") None
  = TflRequest "https://api.tfl.gov.uk/Journey/JourneyResults/IG3%208EE/to/EC2Y%205BL"
      [("app_key", Some "k3y"); ("mode", None); ("timeIs", Some "Departing");
       ("via", Some "Liverpool%20Street"); ("time", Some "0830");
       ("date", Some "20251115")].
Proof. reflexivity. Qed.

Example fetch_caches_first_journey :
  let '(result, self) :=
    get_tfl_journey one_journey_env "IG3 8EE" "EC2Y 5BL" None false None None None
      None keyed in
  result = journey_result_of kings_cross_journey
  ∧ r_legs result = Some 2%nat
  ∧ last_journey self = Some result
  ∧ length (requests_log self) = 1%nat.
Proof. vm_compute. done. Qed.

Example select_after_invalid_answers :
  let '(out, self) :=
    select_journey_option one_journey_env "IG3 8EE" "EC2Y 5BL" no_options
      [Line "x"; Line "7"; Line " 1 "; Line "q"] keyed in
  out = Returned (Some (journey_result_of kings_cross_journey))
  ∧ last_journey self = Some (journey_result_of kings_cross_journey).
Proof. vm_compute. done. Qed.

Example select_cancelled :
  (select_journey_option one_journey_env "IG3 8EE" "EC2Y 5BL" no_options
     [Line "0"; Line " Q"] keyed).1 = Returned None
  ∧ (select_journey_option one_journey_env "IG3 8EE" "EC2Y 5BL" no_options
       [Line "2"; KeyboardInterrupt; Line "1"] keyed).1 = Returned None
  ∧ (select_journey_option one_journey_env "IG3 8EE" "EC2Y 5BL" no_options
       [Line "2"] keyed).1 = RaisedEOFError.
Proof. vm_compute. done. Qed.

Example cached_journey_is_rendered :
  let self := set_last_journey (journey_result_of kings_cross_journey) keyed in
  print_journey_instructions None self
  = Rendered (journey_result_of kings_cross_journey) (journey_legs kings_cross_journey)
  ∧ (visualize_journey None "journey_map.html" self).1 = Some "journey_map.html"
  ∧ print_journey_instructions None keyed = NoJourneyData
  ∧ print_journey_instructions (Some timed_out_result) self
    = NotSuccessful "API request failed: Read timed out.".
Proof. vm_compute. done. Qed.

(** * Further properties *)

(** ** Percent-encoding and the request URL *)

Lemma has_space_app (s t : string) :
  has_space (s ++ t) = has_space s || has_space t.
Proof.
  induction s as [|c s IH]; [done|].
  change (String c s ++ t)%string with (String c (s ++ t)). simpl.
  by rewrite IH, orb_assoc.
Qed.

Lemma percent_encode_spaces_no_space (s : string) :
  has_space (percent_encode_spaces s) = false.
Proof.
  induction s as [|c s IH]; simpl; [done|].
  destruct (Ascii.nat_of_ascii c =? 32)%nat eqn:Hc; simpl; [done|].
  by rewrite Hc.
Qed.

(** The URL of a journey query holds no space, whatever the two locations
    are, as long as the base URL holds none. *)
Theorem journey_url_no_space (self : calculator) (from_location to_location : string) :
  has_space (tfl_base_url self) = false →
  has_space (journey_url self from_location to_location) = false.
Proof.
  intros Hbase. unfold journey_url.
  rewrite !has_space_app, Hbase, !percent_encode_spaces_no_space. done.
Qed.

Lemma journey_url_no_space_witness :
  has_space (tfl_base_url keyed) = false
  ∧ has_space (journey_url keyed " IG3  8EE" "EC2Y 5BL ") = false.
Proof.
  split; [reflexivity|].
  apply (journey_url_no_space keyed " IG3  8EE" "EC2Y 5BL "). reflexivity.
Defined.

(** Encoding leaves text without spaces as it is, so encoding twice is
    encoding once. *)
Theorem percent_encode_spaces_idempotent (s : string) :
  (has_space s = false → percent_encode_spaces s = s)
  ∧ percent_encode_spaces (percent_encode_spaces s) = percent_encode_spaces s.
Proof.
  assert (Hid : ∀ t, has_space t = false → percent_encode_spaces t = t).
  { induction t as [|c t IH]; simpl; [done|].
    destruct (Ascii.nat_of_ascii c =? 32)%nat; simpl; [done|].
    intros Ht. by rewrite IH. }
  split; [apply Hid|]. apply Hid, percent_encode_spaces_no_space.
Qed.

(** ** Station names *)

Lemma string_app_cons (c : Ascii.ascii) (s t : string) :
  (String c s ++ t)%string = String c (s ++ t).
Proof. reflexivity. Qed.
Lemma string_app_assoc (s t u : string) : (s ++ (t ++ u) = (s ++ t) ++ u)%string.
Proof. induction s as [|c s IH]; [done|]. rewrite !string_app_cons. by f_equal. Qed.
Lemma string_app_nil_r (s : string) : (s ++ "")%string = s.
Proof. induction s as [|c s IH]; [done|]. rewrite string_app_cons. by f_equal. Qed.
Lemma rev_app_acc (s acc : string) :
  String.rev_app s acc = (String.rev_app s "" ++ acc)%string.
Proof.
  revert acc. induction s as [|c s IH]; intros acc; simpl; [done|].
  rewrite (IH (String c acc)), (IH (String c "")).
  by rewrite <- string_app_assoc.
Qed.
Lemma string_rev_app (s t : string) :
  String.rev (s ++ t) = (String.rev t ++ String.rev s)%string.
Proof.
  unfold String.rev. induction s as [|c s IH].
  - by rewrite string_app_nil_r.
  - rewrite string_app_cons. simpl.
    rewrite (rev_app_acc (s ++ t)), IH, (rev_app_acc s (String c "")).
    by rewrite string_app_assoc.
Qed.

Lemma all_space_app (s t : string) :
  all_space (s ++ t) = all_space s && all_space t.
Proof.
  induction s as [|c s IH]; [done|]. rewrite string_app_cons. simpl.
  by rewrite IH, andb_assoc.
Qed.

Lemma all_space_rev (s : string) : all_space (String.rev s) = all_space s.
Proof.
  induction s as [|c s IH]; [done|].
  change (String c s) with (String c "" ++ s)%string.
  rewrite string_rev_app, !all_space_app, IH. unfold String.rev. simpl.
  by rewrite andb_true_r, andb_comm.
Qed.

Lemma lstrip_all_space (s : string) : all_space s = true → lstrip s = EmptyString.
Proof.
  induction s as [|c s IH]; simpl; [done|].
  destruct (is_space c); [|done]. exact IH.
Qed.

Lemma lstrip_app (s t : string) :
  lstrip (s ++ t)
  = if all_space s then lstrip t else (lstrip s ++ t)%string.
Proof.
  induction s as [|c s IH]; [done|]. rewrite string_app_cons. simpl.
  destruct (is_space c); simpl; [exact IH|done].
Qed.

Lemma all_space_lstrip (s : string) : all_space s = false → all_space (lstrip s) = false.
Proof.
  induction s as [|c s IH]; simpl; [done|].
  destruct (is_space c) eqn:Hc; simpl; [exact IH|]. by rewrite Hc.
Qed.

Lemma rstrip_app_space (s r : string) : all_space r = true → rstrip (s ++ r) = rstrip s.
Proof.
  intros Hr. unfold rstrip. rewrite string_rev_app, lstrip_app.
  by rewrite all_space_rev, Hr.
Qed.

Lemma strip_pad (l s r : string) :
  all_space l = true → all_space r = true → strip (l ++ s ++ r) = strip s.
Proof.
  intros Hl Hr. unfold strip. rewrite lstrip_app, Hl, lstrip_app.
  destruct (all_space s) eqn:Hs.
  - by rewrite (lstrip_all_space r Hr), (lstrip_all_space s Hs).
  - by apply rstrip_app_space.
Qed.

Lemma is_space_lower_char (c : Ascii.ascii) : is_space (lower_char c) = is_space c.
Proof.
  unfold lower_char.
  destruct ((65 <=? Ascii.nat_of_ascii c)%nat && (Ascii.nat_of_ascii c <=? 90)%nat)
    eqn:Hup; [|done].
  apply andb_prop in Hup as [Hlo%Nat.leb_le Hhi%Nat.leb_le].
  unfold is_space. rewrite Ascii.nat_ascii_embedding by lia.
  transitivity false; [|symmetry];
    apply orb_false_intro; apply andb_false_iff;
    rewrite !Nat.leb_gt; lia.
Qed.

Lemma lower_app (s t : string) : lower (s ++ t) = (lower s ++ lower t)%string.
Proof.
  induction s as [|c s IH]; [done|]. rewrite string_app_cons. simpl.
  by rewrite IH.
Qed.

Lemma lower_rev (s : string) : lower (String.rev s) = String.rev (lower s).
Proof.
  induction s as [|c s IH]; [done|].
  change (String c s) with (String c "" ++ s)%string.
  rewrite lower_app, !string_rev_app, lower_app, IH. done.
Qed.

Lemma lower_lstrip (s : string) : lower (lstrip s) = lstrip (lower s).
Proof.
  induction s as [|c s IH]; simpl; [done|].
  rewrite is_space_lower_char. by destruct (is_space c).
Qed.

Lemma lower_strip (s : string) : lower (strip s) = strip (lower s).
Proof.
  unfold strip, rstrip. by rewrite lower_rev, lower_lstrip, lower_rev, lower_lstrip.
Qed.

(** The part of a route key taken from a station name does not change when
    the name is padded with white space on either side or spelt in another
    letter case. *)
Theorem station_key_insensitive (l r name name' : string) :
  all_space l = true → all_space r = true → lower name = lower name' →
  lower (strip (l ++ name ++ r)) = lower (strip name').
Proof.
  intros Hl Hr Hcase. rewrite (strip_pad l name r Hl Hr).
  by rewrite !lower_strip, Hcase.
Qed.

Lemma station_key_insensitive_witness :
  lower (strip ("  " ++ "KINGS Cross" ++ " ")) = lower (strip "kings cross").
Proof.
  apply (station_key_insensitive "  " " " "KINGS Cross" "kings cross");
    reflexivity.
Defined.

(** ** Fare extraction, continued *)

Lemma pence_to_pounds_positive (x : num) : lit 0 < x → lit 0 < x / lit 100.
Proof.
  intros Hx. unfold Qcdiv, lit in *.
  rewrite <- (Qcmult_0_l (/ Q2Qc 100)).
  apply Qcmult_lt_compat_r; [|done]. by apply Qcinv_pos.
Qed.


Lemma fare_from_total_zones (fare_data : raw_fare_block) (fi : fare_info) :
  zones (fare_from_total fare_data fi) = zones fi.
Proof. unfold fare_from_total. by repeat case_match. Qed.

Lemma fare_try_zones_zones (first_fare : raw_fare) (fi : fare_info) :
  zones (fare_try_zones first_fare fi) = zones fi.
Proof. unfold fare_try_zones, fare_try_high. by repeat case_match. Qed.

Lemma fare_store_both_zones (first_fare : raw_fare) (fi : fare_info) :
  zones (fare_store_both first_fare fi) = zones fi.
Proof. unfold fare_store_both. by repeat case_match. Qed.

Lemma zones_before_caveat (fare_data : raw_fare_block) :
  zones (fare_from_breakdown fare_data (fare_from_total fare_data empty_fare_info))
  = None.
Proof.
  unfold fare_from_breakdown.
  repeat case_match;
    rewrite ?fare_store_both_zones, ?fare_try_zones_zones, fare_from_total_zones;
    done.
Qed.

(** The fields of [_extract_fare] by cases on the fare block. *)
Lemma extract_fare_cases (journey : raw_journey) :
  match fare journey with
  | None => _extract_fare journey = empty_fare_info
  | Some fare_data =>
      zones (_extract_fare journey) = caveatText fare_data ∧
      match totalCost fare_data with
      | Some tc =>
          if positive_num tc then
            total_cost (_extract_fare journey) = Some (tc / lit 100)
            ∧ peak_single (_extract_fare journey) = None
            ∧ off_peak_single (_extract_fare journey) = None
          else
            match fares fare_data with
            | Some (first_fare :: _) =>
                total_cost (_extract_fare journey) = zone_total first_fare
                ∧ peak_single (_extract_fare journey)
                  = (λ h, h / lit 100) <$> highZone first_fare
                ∧ off_peak_single (_extract_fare journey)
                  = (λ l, l / lit 100) <$> lowZone first_fare
            | _ =>
                total_cost (_extract_fare journey) = None
                ∧ peak_single (_extract_fare journey) = None
                ∧ off_peak_single (_extract_fare journey) = None
            end
      | None =>
          match fares fare_data with
          | Some (first_fare :: _) =>
              total_cost (_extract_fare journey) = zone_total first_fare
              ∧ peak_single (_extract_fare journey)
                = (λ h, h / lit 100) <$> highZone first_fare
              ∧ off_peak_single (_extract_fare journey)
                = (λ l, l / lit 100) <$> lowZone first_fare
          | _ =>
              total_cost (_extract_fare journey) = None
              ∧ peak_single (_extract_fare journey) = None
              ∧ off_peak_single (_extract_fare journey) = None
          end
      end
  end.
Proof.
  unfold _extract_fare. destruct (fare journey) as [fare_data|]; [|done].
  split.
  { pose proof (zones_before_caveat fare_data) as Hz. unfold fare_zones.
    by destruct (caveatText fare_data). }
  destruct (fare_zones_fields fare_data
              (fare_from_breakdown fare_data (fare_from_total fare_data empty_fare_info)))
    as (-> & -> & ->).
  assert (Hskip : (∀ tc, totalCost fare_data = Some tc → ¬ lit 0 < tc) →
    match fares fare_data with
    | Some (first_fare :: _) =>
        total_cost (fare_from_breakdown fare_data (fare_from_total fare_data empty_fare_info))
        = zone_total first_fare
        ∧ peak_single (fare_from_breakdown fare_data (fare_from_total fare_data empty_fare_info))
          = (λ h, h / lit 100) <$> highZone first_fare
        ∧ off_peak_single (fare_from_breakdown fare_data (fare_from_total fare_data empty_fare_info))
          = (λ l, l / lit 100) <$> lowZone first_fare
    | _ =>
        total_cost (fare_from_breakdown fare_data (fare_from_total fare_data empty_fare_info))
        = None
        ∧ peak_single (fare_from_breakdown fare_data (fare_from_total fare_data empty_fare_info))
          = None
        ∧ off_peak_single (fare_from_breakdown fare_data (fare_from_total fare_data empty_fare_info))
          = None
    end).
  { intros Hno. rewrite (fare_from_total_skip _ _ Hno).
    unfold fare_from_breakdown. simpl.
    destruct (fares fare_data) as [[|first_fare rest]|]; [done| |done].
    destruct (fare_try_zones_singles first_fare) as (Hp & Ho & Hol & Hph & _).
    destruct (fare_store_both_fields first_fare _ Hp Ho Hol Hph) as (Ht & Hp' & Ho' & _).
    rewrite Ht, Hp', Ho'. by rewrite fare_try_zones_total. }
  destruct (totalCost fare_data) as [tc|] eqn:Htc.
  - destruct (positive_num tc) eqn:Hpos.
    + unfold fare_from_total. rewrite Htc, Hpos, (positive_truthy _ Hpos). simpl.
      unfold fare_from_breakdown. simpl.
      assert (Ht : truthy_num (tc / lit 100) = true).
      { apply truthy_num_true, pence_to_pounds_nonzero, positive_nonzero.
        by apply positive_num_true. }
      by rewrite Ht.
    + apply Hskip. intros tc' [= <-]. by apply positive_num_false.
  - apply Hskip. by intros tc' [=].
Qed.






(** [zones] is the [caveatText] of the fare block in every case, and a
    journey without a fare block gives four empty fields. *)
Theorem extract_fare_zones (journey : raw_journey) :
  zones (_extract_fare journey) = fare journey ≫= caveatText
  ∧ (fare journey = None → _extract_fare journey = empty_fare_info).
Proof.
  pose proof (extract_fare_cases journey) as H.
  destruct (fare journey) as [fare_data|]; simpl.
  - by destruct H as [-> _].
  - by rewrite H.
Qed.

(** Only the fare block is read, and of its [fares] list only the first
    element. *)
Theorem extract_fare_first_element_only
    (d d' : option Z) (s s' a a' : option string) (l l' : option (list raw_leg))
    (tc : option num) (first_fare : raw_fare) (rest rest' : list raw_fare)
    (c : option string) :
  _extract_fare
    (RawJourney d s a l (Some (RawFareBlock tc (Some (first_fare :: rest)) c)))
  = _extract_fare
      (RawJourney d' s' a' l' (Some (RawFareBlock tc (Some (first_fare :: rest')) c))).
Proof.
  unfold _extract_fare, fare_from_breakdown, fare_from_total, fare_zones. simpl.
  destruct tc as [t|]; [|done].
  by destruct (truthy_num t && positive_num t).
Qed.


(** ** The duplicate-route filter, continued *)

Lemma first_per_key_fixpoint (js earlier : list raw_journey) :
  (∀ j, j ∈ js → journey_key j ≠ None) →
  NoDup (journey_key <$> js) →
  (∀ j, j ∈ js → journey_key j ∉ journey_key <$> earlier) →
  first_per_key earlier js = js.
Proof.
  revert earlier. induction js as [|x js IH]; intros earlier Hkeys Hnd Hnew; [done|].
  simpl in *. apply NoDup_cons in Hnd as [Hx Hnd].
  destruct (journey_key x) as [k|] eqn:Hk.
  - rewrite bool_decide_eq_false_2.
    + f_equal. apply IH; [|done|].
      * intros j Hj. apply Hkeys. by right.
      * intros j Hj. rewrite fmap_app, elem_of_app. simpl.
        rewrite list_elem_of_singleton, Hk. intros [Hin|Heq].
        -- by apply (Hnew j); [right|].
        -- apply Hx. rewrite <- Heq. by apply list_elem_of_fmap_2.
    + specialize (Hnew x (list_elem_of_here _ _)). by rewrite Hk in Hnew.
  - by destruct (Hkeys x (list_elem_of_here _ _)).
Qed.

(** A list of journeys that all have legs and pairwise different keys is
    returned as it is. *)
Theorem filter_duplicate_routes_distinct (js : list raw_journey) :
  (∀ j, j ∈ js → journey_legs j ≠ []) →
  NoDup (journey_key <$> js) →
  filter_duplicate_routes js = js.
Proof.
  intros Hlegs Hnd. rewrite filter_duplicate_routes_spec.
  apply first_per_key_fixpoint; [|done|].
  - intros j Hj. rewrite journey_key_legs. by apply Hlegs.
  - intros j _. simpl. apply not_elem_of_nil.
Qed.

Lemma filter_duplicate_routes_distinct_witness :
  filter_duplicate_routes [kings_cross_journey; stratford_journey]
  = [kings_cross_journey; stratford_journey].
Proof.
  apply (filter_duplicate_routes_distinct [kings_cross_journey; stratford_journey]).
  - intros j Hj. apply elem_of_cons in Hj as [->|Hj]; [done|].
    apply list_elem_of_singleton in Hj as ->. done.
  - vm_compute. repeat constructor; rewrite ?elem_of_cons, ?elem_of_nil; naive_solver.
Defined.

(** Filtering a filtered list changes nothing. *)
Theorem filter_duplicate_routes_idempotent (js : list raw_journey) :
  filter_duplicate_routes (filter_duplicate_routes js) = filter_duplicate_routes js.
Proof.
  rewrite (filter_duplicate_routes_spec js).
  rewrite filter_duplicate_routes_spec.
  apply first_per_key_fixpoint.
  - intros j Hj. by apply first_per_key_elem in Hj as (_ & ? & _).
  - apply first_per_key_NoDup.
  - intros j _. simpl. apply not_elem_of_nil.
Qed.

(** Journeys that arrive later never change what was kept before: the
    result for a list is a prefix of the result for any extension of it,
    and it is never longer than the input. *)
Theorem filter_duplicate_routes_prefix (js more : list raw_journey) :
  filter_duplicate_routes js `prefix_of` filter_duplicate_routes (js ++ more)
  ∧ (length (filter_duplicate_routes js) ≤ length js)%nat.
Proof.
  rewrite !filter_duplicate_routes_spec, first_per_key_app. split.
  - by eexists.
  - apply sublist_length, first_per_key_sublist.
Qed.

(** ** Transit queries, continued *)

(** A successful [get_tfl_journey] result is built from the first journey
    of the response: its leg count is the number of legs of the journey it
    carries, its fare is the extracted fare, and a key was present. *)
Theorem get_tfl_journey_success_shape (E : env) (from_location to_location : string)
    (mode : option string) (time_is_arrival : bool)
    (via journey_preference time date : option string) (self : calculator) :
  let result := (get_tfl_journey E from_location to_location mode time_is_arrival
                   via journey_preference time date self).1 in
  r_success result = true →
  truthy_str (tfl_app_key self) = true
  ∧ ∃ data journey rest,
      tfl_get E (tfl_journey_request E self from_location to_location mode
                   time_is_arrival via journey_preference time date) = inr data
      ∧ journeys data = Some (journey :: rest)
      ∧ r_raw_data result = Some (RawJourneyData journey)
      ∧ r_legs result = Some (length (result_legs result))
      ∧ r_fare result = Some (_extract_fare journey)
      ∧ r_duration_minutes result = Some (default 0%Z (duration journey))
      ∧ r_error result = None.
Proof.
  simpl. unfold get_tfl_journey.
  destruct (truthy_str (tfl_app_key self)) eqn:Hkey; simpl; [|done].
  destruct (tfl_get E _) as [e|data] eqn:Hget; simpl; [done|].
  unfold first_journey_result.
  destruct (journeys data) as [[|journey rest]|] eqn:Hjs; simpl; [done| |done].
  intros _. split; [done|]. by exists data, journey, rest.
Qed.

Lemma get_tfl_journey_success_shape_witness :
  let result := (get_tfl_journey one_journey_env "IG3 8EE" "EC2Y 5BL" None false
                   None None None None keyed).1 in
  r_success result = true ∧ r_legs result = Some (length (result_legs result)).
Proof.
  simpl. split; [reflexivity|].
  destruct (get_tfl_journey_success_shape one_journey_env "IG3 8EE" "EC2Y 5BL" None
              false None None None None keyed eq_refl)
    as (_ & data & journey & rest & _ & _ & _ & Hlegs & _).
  exact Hlegs.
Defined.

(** What [get_all_journey_options] returns, when it returns a list: the
    list is not empty, its journeys come from the response in the order of
    the response, each has a leg, and no two share a route key. *)
Theorem get_all_journey_options_some (E : env) (from_location to_location : string)
    (kwargs : options) (self : calculator) (options : list raw_journey) :
  (get_all_journey_options E from_location to_location kwargs self).1 = Some options →
  options ≠ []
  ∧ (∀ j, j ∈ options → journey_legs j ≠ [])
  ∧ NoDup (journey_key <$> options)
  ∧ truthy_str (tfl_app_key self) = true
  ∧ ∃ data,
      tfl_get E (all_options_request E self from_location to_location kwargs)
      = inr data
      ∧ options `sublist_of` default [] (journeys data).
Proof.
  unfold get_all_journey_options.
  destruct (truthy_str (tfl_app_key self)) eqn:Hkey; simpl; [|done].
  destruct (tfl_get E _) as [e|data] eqn:Hget; simpl; [done|].
  unfold journey_options_of_data.
  destruct (default [] (journeys data)) as [|j js] eqn:Hjs; [done|].
  destruct (filter_duplicate_routes (j :: js)) as [|o os] eqn:Hf; [done|].
  intros [= <-]. rewrite <- Hf, filter_duplicate_routes_spec.
  split_and!.
  - rewrite <- filter_duplicate_routes_spec, Hf. done.
  - intros x Hx. apply first_per_key_elem in Hx as (_ & Hk & _).
    by rewrite <- journey_key_legs.
  - apply first_per_key_NoDup.
  - done.
  - exists data. split; [done|]. rewrite Hjs. apply first_per_key_sublist.
Qed.

Lemma get_all_journey_options_some_witness :
  (get_all_journey_options two_options_env "IG3 8EE" "W1D 3BG" no_options keyed).1
  = Some [kings_cross_journey; stratford_journey]
  ∧ NoDup (journey_key <$> [kings_cross_journey; stratford_journey]).
Proof.
  assert (Hrun : (get_all_journey_options two_options_env "IG3 8EE" "W1D 3BG"
                    no_options keyed).1
                 = Some [kings_cross_journey; stratford_journey])
    by (vm_compute; reflexivity).
  split; [exact Hrun|].
  exact (proj1 (proj2 (proj2 (get_all_journey_options_some two_options_env "IG3 8EE"
                                "W1D 3BG" no_options keyed _ Hrun)))).
Defined.

(** [print_all_journey_options] sends the request of
    [get_all_journey_options], leaves the calculator in the same state, and
    returns the response exactly when [get_all_journey_options] returns a
    list. *)
Theorem print_all_agrees_with_get_all (E : env) (from_location to_location : string)
    (kwargs : options) (self : calculator) :
  let printed := print_all_journey_options E from_location to_location kwargs self in
  let listed := get_all_journey_options E from_location to_location kwargs self in
  printed.2 = listed.2
  ∧ (is_Some printed.1 ↔ is_Some listed.1)
  ∧ (∀ data, printed.1 = Some data →
       tfl_get E (all_options_request E self from_location to_location kwargs)
       = inr data
       ∧ listed.1 = Some (filter_duplicate_routes (default [] (journeys data)))).
Proof.
  simpl. unfold print_all_journey_options, get_all_journey_options.
  destruct (truthy_str (tfl_app_key self)); simpl.
  - destruct (tfl_get E _) as [e|data] eqn:Hget; simpl.
    + split_and!; [done| |done]. split; by intros [? ?].
    + unfold journey_options_of_data.
      destruct (default [] (journeys data)) as [|j js] eqn:Hjs; simpl.
      * split_and!; [done| |done]. split; by intros [? ?].
      * destruct (filter_duplicate_routes (j :: js)) as [|o os] eqn:Hf; simpl.
        -- split_and!; [done| |done]. split; by intros [? ?].
        -- split_and!; [done|split; by eexists|].
           intros data' [= <-]. by rewrite Hjs, Hf.
  - split_and!; [done| |done]. split; by intros [? ?].
Qed.

(** ** Requests sent and configuration kept *)

(** The loop of [select_journey_option] changes nothing but the cache. *)
Lemma select_loop_state (journeys : list raw_journey) (inputs : list user_input)
    (self : calculator) :
  (select_loop journeys inputs self).2 = self
  ∨ ∃ r, (select_loop journeys inputs self).2 = set_last_journey r self.
Proof.
  induction inputs as [|[s|] inputs IH]; simpl; [by left| |by left].
  destruct (String.eqb (lower (strip s)) "q"); [by left|].
  destruct (py_int (strip s)) as [n|]; [|exact IH].
  destruct ((1 <=? n)%Z && (n <=? Z.of_nat (length journeys))%Z); [|exact IH].
  destruct (journeys !! Z.to_nat (n - 1)) as [j|]; [|exact IH].
  right. by eexists.
Qed.

Lemma select_journey_option_state (E : env) (from_location to_location : string)
    (kwargs : options) (inputs : list user_input) (self : calculator) :
  let listed := (get_all_journey_options E from_location to_location kwargs self).2 in
  let selected :=
    (select_journey_option E from_location to_location kwargs inputs self).2 in
  selected = listed ∨ ∃ r, selected = set_last_journey r listed.
Proof.
  simpl. unfold select_journey_option.
  destruct (get_all_journey_options E from_location to_location kwargs self)
    as [[[|j js]|] self1]; simpl; [by left| |by left].
  apply select_loop_state.
Qed.

(** Every operation sends at most one request: a journey query sends one
    exactly when a key is present, a selection sends no more than the
    listing it starts with however many answers it reads, a road query
    always sends one, and an estimate for a journey given as argument sends
    none. *)
Theorem requests_sent (E : env) (from_location to_location : string)
    (mode : option string) (time_is_arrival : bool)
    (via journey_preference time date : option string)
    (kwargs : options) (inputs : list user_input)
    (ofrom oto : option string) (days_per_week : Z) (use_travelcard : bool)
    (journey : journey_result) (coords1 coords2 : num * num) (profile : string)
    (self : calculator) :
  requests_log (get_tfl_journey E from_location to_location mode time_is_arrival
                  via journey_preference time date self).2
  = requests_log self
    ++ (if truthy_str (tfl_app_key self)
        then [TflGet (tfl_journey_request E self from_location to_location mode
                        time_is_arrival via journey_preference time date)]
        else [])
  ∧ requests_log (get_all_journey_options E from_location to_location kwargs self).2
    = requests_log self
      ++ (if truthy_str (tfl_app_key self)
          then [TflGet (all_options_request E self from_location to_location kwargs)]
          else [])
  ∧ requests_log (select_journey_option E from_location to_location kwargs inputs
                    self).2
    = requests_log (get_all_journey_options E from_location to_location kwargs self).2
  ∧ requests_log (get_osrm_route E coords1 coords2 profile self).2
    = requests_log self ++ [OsrmGet (osrm_route_request self coords1 coords2 profile)]
  ∧ requests_log (calculate_monthly_commute_cost E ofrom oto days_per_week
                    use_travelcard (Some journey) self).2
    = requests_log self.
Proof.
  split_and!.
  - unfold get_tfl_journey.
    destruct (truthy_str (tfl_app_key self)); simpl; [done|by rewrite app_nil_r].
  - unfold get_all_journey_options.
    destruct (truthy_str (tfl_app_key self)); simpl; [|by rewrite app_nil_r].
    by destruct (tfl_get E _).
  - destruct (select_journey_option_state E from_location to_location kwargs inputs
                self) as [->|[r ->]]; done.
  - unfold get_osrm_route. by repeat case_match.
  - unfold calculate_monthly_commute_cost. simpl. by case_match.
Qed.

(** No operation changes the key or the two base URLs. *)
Theorem configuration_kept (E : env) (from_location to_location : string)
    (mode : option string) (time_is_arrival : bool)
    (via journey_preference time date : option string)
    (kwargs : options) (inputs : list user_input)
    (ofrom oto : option string) (days_per_week : Z) (use_travelcard : bool)
    (journey : option journey_result) (coords1 coords2 : num * num)
    (profile : string) (self : calculator) :
  let config (c : calculator) := (tfl_app_key c, tfl_base_url c, osrm_base_url c) in
  config (get_tfl_journey E from_location to_location mode time_is_arrival
            via journey_preference time date self).2 = config self
  ∧ config (get_all_journey_options E from_location to_location kwargs self).2
    = config self
  ∧ config (print_all_journey_options E from_location to_location kwargs self).2
    = config self
  ∧ config (select_journey_option E from_location to_location kwargs inputs self).2
    = config self
  ∧ config (calculate_monthly_commute_cost E ofrom oto days_per_week use_travelcard
              journey self).2 = config self
  ∧ config (get_osrm_route E coords1 coords2 profile self).2 = config self.
Proof.
  simpl.
  assert (Hall : (tfl_app_key
                    (get_all_journey_options E from_location to_location kwargs self).2,
                  tfl_base_url
                    (get_all_journey_options E from_location to_location kwargs self).2,
                  osrm_base_url
                    (get_all_journey_options E from_location to_location kwargs self).2)
                 = (tfl_app_key self, tfl_base_url self, osrm_base_url self)).
  { unfold get_all_journey_options. by repeat case_match. }
  split_and!.
  - unfold get_tfl_journey. by case_match.
  - done.
  - unfold print_all_journey_options. by repeat case_match.
  - destruct (select_journey_option_state E from_location to_location kwargs inputs
                self) as [->|[r ->]]; done.
  - unfold calculate_monthly_commute_cost, cost_journey, get_tfl_journey.
    repeat case_match; simplify_eq; done.
  - unfold get_osrm_route. by repeat case_match.
Qed.

(** ** Selection *)

(** A journey returned by [select_journey_option] is built from one of the
    options that [get_all_journey_options] lists for the same query, and it
    is the one left in the cache. *)
Theorem selected_is_listed (E : env) (from_location to_location : string)
    (kwargs : options) (inputs : list user_input) (self : calculator)
    (r : journey_result) :
  (select_journey_option E from_location to_location kwargs inputs self).1
  = Returned (Some r) →
  ∃ options j,
    (get_all_journey_options E from_location to_location kwargs self).1 = Some options
    ∧ j ∈ options ∧ r = journey_result_of j
    ∧ last_journey
        (select_journey_option E from_location to_location kwargs inputs self).2
      = Some r.
Proof.
  unfold select_journey_option.
  destruct (get_all_journey_options E from_location to_location kwargs self)
    as [[[|j js]|] self1]; simpl; [done| |done].
  pose proof (select_loop_cache (j :: js) inputs self1) as Hloop.
  destruct (select_loop (j :: js) inputs self1) as [[[r'|]|] self']; simpl; [|done..].
  intros [= ->]. destruct Hloop as (Hcache & _ & j' & Hin & ->).
  by exists (j :: js), j'.
Qed.

Lemma selected_is_listed_witness :
  (select_journey_option two_options_env "IG3 8EE" "W1D 3BG" no_options
     [Line "3"; Line "2"] keyed).1
  = Returned (Some (journey_result_of stratford_journey))
  ∧ ∃ options j,
      (get_all_journey_options two_options_env "IG3 8EE" "W1D 3BG" no_options keyed).1
      = Some options
      ∧ j ∈ options ∧ journey_result_of stratford_journey = journey_result_of j.
Proof.
  assert (Hrun : (select_journey_option two_options_env "IG3 8EE" "W1D 3BG" no_options
                    [Line "3"; Line "2"] keyed).1
                 = Returned (Some (journey_result_of stratford_journey)))
    by (vm_compute; reflexivity).
  split; [exact Hrun|].
  destruct (selected_is_listed two_options_env "IG3 8EE" "W1D 3BG" no_options
              [Line "3"; Line "2"] keyed _ Hrun) as (options & j & H1 & H2 & H3 & _).
  by exists options, j.
Defined.

(** An answer that is neither [q] nor a number of an option is passed
    over: the next answer decides. *)
Theorem invalid_answer_skipped (journeys : list raw_journey) (s : string)
    (rest : list user_input) (self : calculator) :
  lower (strip s) ≠ "q" →
  (∀ n, py_int (strip s) = Some n → (n < 1 ∨ Z.of_nat (length journeys) < n)%Z) →
  select_loop journeys (Line s :: rest) self = select_loop journeys rest self.
Proof.
  intros Hq Hrange. simpl.
  destruct (String.eqb (lower (strip s)) "q") eqn:Heq.
  { by apply String.eqb_eq in Heq. }
  destruct (py_int (strip s)) as [n|]; [|done].
  destruct (Hrange n eq_refl) as [Hlo|Hhi].
  - by rewrite (proj2 (Z.leb_gt 1 n) Hlo).
  - by rewrite (proj2 (Z.leb_gt n _) Hhi), andb_false_r.
Qed.

Lemma invalid_answer_skipped_witness :
  select_loop [kings_cross_journey] (Line "two" :: [Line "1"]) keyed
  = select_loop [kings_cross_journey] [Line "1"] keyed.
Proof.
  apply (invalid_answer_skipped [kings_cross_journey] "two" [Line "1"] keyed).
  - vm_compute. discriminate.
  - intros n Hn. vm_compute in Hn. discriminate Hn.
Defined.

(** ** Cost estimation, continued *)

Lemma lit_mult (p q : Q) : lit p * lit q = lit (p * q).
Proof. apply Qc_is_canon. simpl. by rewrite !Qred_correct. Qed.

Lemma lit_le (p q : Q) : (p <= q)%Q → lit p <= lit q.
Proof. intros H. unfold Qcle. simpl. by rewrite !Qred_correct. Qed.

Lemma lit_lt (p q : Q) : (p < q)%Q → lit p < lit q.
Proof. intros H. unfold Qclt. simpl. by rewrite !Qred_correct. Qed.

Lemma monthly_shape (s d : num) : s * lit 2 * d * lit 4.33 = s * (d * lit 8.66).
Proof.
  replace (lit 8.66) with (lit 2 * lit 4.33)
    by (rewrite lit_mult; by apply Qc_is_canon).
  ring.
Qed.

Lemma cap_shape (s : num) : s * lit 2.5 * lit 20 = s * lit 50.
Proof.
  replace (lit 50) with (lit 2.5 * lit 20)
    by (rewrite lit_mult; by apply Qc_is_canon).
  ring.
Qed.

Lemma nonzero_or_nonneg (o : option num) (a : num) :
  (∀ x, o = Some x → lit 0 <= x) → lit 0 <= a → lit 0 <= nonzero_or o a.
Proof.
  intros Ho Ha. destruct o as [x|]; simpl; [|done].
  destruct (truthy_num x); [by apply Ho|done].
Qed.

Lemma py_min_nonneg (a b : num) : lit 0 <= a → lit 0 <= b → lit 0 <= py_min a b.
Proof. intros Ha Hb. unfold py_min. by case_bool_decide. Qed.

(** With fares that are not negative and a number of days that is not
    negative, no figure of the estimate is negative. *)
Theorem estimate_nonnegative (journey : journey_result) (days_per_week : Z) :
  let fare := default empty_fare_info (r_fare journey) in
  let e := estimate_costs journey days_per_week in
  (∀ x, total_cost fare = Some x → lit 0 <= x) →
  (∀ x, off_peak_single fare = Some x → lit 0 <= x) →
  (∀ x, peak_single fare = Some x → lit 0 <= x) →
  (0 ≤ days_per_week)%Z →
  lit 0 <= single_fare e ∧ lit 0 <= daily_cost e ∧ lit 0 <= weekly_cost e
  ∧ lit 0 <= monthly_cost e ∧ lit 0 <= monthly_cost_with_cap e
  ∧ lit 0 <= annual_cost e.
Proof.
  simpl. intros Ht Ho Hp Hd.
  set (s := resolve_single_fare (default empty_fare_info (r_fare journey))).
  assert (Hs : lit 0 <= s).
  { unfold s. rewrite resolve_single_fare_nonzero. unfold single_fare_if_nonzero.
    repeat apply nonzero_or_nonneg; done. }
  assert (Hdq : lit 0 <= lit (inject_Z days_per_week)).
  { apply lit_le. rewrite (Zle_Qle 0 days_per_week) in Hd. exact Hd. }
  assert (Hdaily : lit 0 <= s * lit 2) by (apply Qcmult_nonneg_nonneg; done).
  assert (Hweekly : lit 0 <= s * lit 2 * lit (inject_Z days_per_week))
    by (apply Qcmult_nonneg_nonneg; done).
  assert (Hmonthly : lit 0 <= s * lit 2 * lit (inject_Z days_per_week) * lit 4.33)
    by (apply Qcmult_nonneg_nonneg; done).
  split_and!; try done.
  - apply py_min_nonneg; [done|].
    apply Qcmult_nonneg_nonneg; [|done]. by apply Qcmult_nonneg_nonneg.
  - by apply Qcmult_nonneg_nonneg.
Qed.

Lemma estimate_nonnegative_witness :
  lit 0 <= monthly_cost_with_cap (estimate_costs (journey_result_of fare_280_journey) 5).
Proof.
  refine (proj1 (proj2 (proj2 (proj2 (proj2
    (estimate_nonnegative (journey_result_of fare_280_journey) 5 _ _ _ _)))))).
  - intros x Hx. injection Hx as <-. apply Qclt_le_weak, pence_to_pounds_positive.
    by apply lit_lt.
  - intros x Hx. discriminate Hx.
  - intros x Hx. discriminate Hx.
  - lia.
Defined.



Lemma nonzero_or_zero (o : option num) (a : num) :
  nonzero_or o a = lit 0 ↔ truthy o = false ∧ a = lit 0.
Proof.
  destruct o as [x|]; cbn [nonzero_or truthy]; [|naive_solver].
  destruct (truthy_num x) eqn:Hx; [|naive_solver].
  apply truthy_num_true in Hx. naive_solver.
Qed.

(** The single fare is zero exactly when none of the three fare fields is
    present with a value other than zero, and then every figure of the
    estimate is zero and the warning is attached. *)
Theorem no_fare_zero_estimate (journey : journey_result) (days_per_week : Z) :
  let fare := default empty_fare_info (r_fare journey) in
  let e := estimate_costs journey days_per_week in
  (single_fare e = lit 0
   ↔ truthy (total_cost fare) = false ∧ truthy (off_peak_single fare) = false
     ∧ truthy (peak_single fare) = false)
  ∧ (single_fare e = lit 0 →
     daily_cost e = lit 0 ∧ weekly_cost e = lit 0 ∧ monthly_cost e = lit 0
     ∧ monthly_cost_with_cap e = lit 0 ∧ annual_cost e = lit 0
     ∧ warning e = Some fare_warning_text ∧ c_success e = true).
Proof.
  cbv zeta. unfold estimate_costs.
  cbn [single_fare daily_cost weekly_cost monthly_cost monthly_cost_with_cap
       annual_cost warning c_success].
  set (fare := default empty_fare_info (r_fare journey)).
  set (s := resolve_single_fare fare). split.
  - unfold s. rewrite resolve_single_fare_nonzero. unfold single_fare_if_nonzero.
    rewrite !nonzero_or_zero. naive_solver.
  - intros Hs. rewrite Hs.
    assert (Hz : ∀ x, lit 0 * x = lit 0) by (intros x; apply Qcmult_0_l).
    rewrite !Hz. split_and!; reflexivity.
Qed.

(** The [use_travelcard] argument has no effect on the result or on the
    calculator. *)
Theorem use_travelcard_ignored (E : env) (from_location to_location : option string)
    (days_per_week : Z) (journey : option journey_result) (self : calculator) :
  calculate_monthly_commute_cost E from_location to_location days_per_week true
    journey self
  = calculate_monthly_commute_cost E from_location to_location days_per_week false
      journey self.
Proof. reflexivity. Qed.

(** Without a journey argument, without both locations and with an empty
    cache, the estimate fails with "No journey data available" and nothing
    is sent or changed. *)
Theorem no_journey_data (E : env) (from_location to_location : option string)
    (days_per_week : Z) (use_travelcard : bool) (self : calculator) :
  truthy_str from_location && truthy_str to_location = false →
  last_journey self = None →
  calculate_monthly_commute_cost E from_location to_location days_per_week
    use_travelcard None self
  = (Failure (error_result
       "No journey data available. Either provide from/to locations or call get_tfl_journey() first."),
     self).
Proof.
  intros Hloc Hcache. unfold calculate_monthly_commute_cost, cost_journey.
  by rewrite Hloc, Hcache.
Qed.

Lemma no_journey_data_witness :
  (calculate_monthly_commute_cost one_journey_env (Some "IG3 8EE") None 5 true None
     keyed).2 = keyed
  ∧ requests_log keyed = [].
Proof.
  split; [|reflexivity].
  by rewrite (no_journey_data one_journey_env (Some "IG3 8EE") None 5 true keyed
                eq_refl eq_refl).
Defined.

(** An estimate asked for with two locations is the query for them followed
    by the estimate for what the query returned; and after a query, the
    estimate taken from the cache is the estimate for the result of that
    query. *)
Theorem estimate_after_fetch (E : env) (from_location to_location : string)
    (days_per_week : Z) (use_travelcard : bool) (self : calculator) :
  from_location ≠ EmptyString → to_location ≠ EmptyString →
  let fetched := get_tfl_journey E from_location to_location None false None None
                   None None self in
  calculate_monthly_commute_cost E (Some from_location) (Some to_location)
    days_per_week use_travelcard None self
  = ((calculate_monthly_commute_cost E None None days_per_week use_travelcard
        (Some fetched.1) fetched.2).1, fetched.2)
  ∧ (truthy_str (tfl_app_key self) = true →
     calculate_monthly_commute_cost E None None days_per_week use_travelcard None
       fetched.2
     = calculate_monthly_commute_cost E None None days_per_week use_travelcard
         (Some fetched.1) fetched.2).
Proof.
  intros Hfrom Hto. simpl. split.
  - unfold calculate_monthly_commute_cost, cost_journey.
    destruct from_location, to_location; try done. simpl.
    destruct (get_tfl_journey E _ _ None false None None None None self)
      as [r self1]. simpl. by case_match.
  - intros Hkey. rewrite (get_tfl_journey_keyed _ _ _ _ _ _ _ _ _ _ Hkey). simpl.
    unfold calculate_monthly_commute_cost, cost_journey. simpl. done.
Qed.

Lemma estimate_after_fetch_witness :
  (calculate_monthly_commute_cost one_journey_env (Some "IG3 8EE") (Some "EC2Y 5BL")
     5 true None keyed).1
  = Estimate (estimate_costs (journey_result_of kings_cross_journey) 5).
Proof.
  destruct (estimate_after_fetch one_journey_env "IG3 8EE" "EC2Y 5BL" 5 true keyed)
    as [-> _]; done.
Defined.

(** ** Road router, continued *)





(** ** Printing and the map *)


(** After a query with a key, printing without an argument shows what the
    query produced: the failure message of a failed request, "No journey
    found" for an empty response, and otherwise the legs of the first
    journey, or nothing to print when it has none. *)
Theorem print_after_fetch (E : env) (from_location to_location : string)
    (mode : option string) (time_is_arrival : bool)
    (via journey_preference time date : option string) (self : calculator) :
  truthy_str (tfl_app_key self) = true →
  let req := tfl_journey_request E self from_location to_location mode
               time_is_arrival via journey_preference time date in
  let self' := (get_tfl_journey E from_location to_location mode time_is_arrival
                  via journey_preference time date self).2 in
  (∀ e, tfl_get E req = inl e →
     print_journey_instructions None self'
     = NotSuccessful ("API request failed: " ++ exc_str e))
  ∧ (∀ data, tfl_get E req = inr data → default [] (journeys data) = [] →
       print_journey_instructions None self' = NotSuccessful "No journey found")
  ∧ (∀ data j rest, tfl_get E req = inr data → journeys data = Some (j :: rest) →
       print_journey_instructions None self'
       = match journey_legs j with
         | [] => NoLegs
         | legs => Rendered (journey_result_of j) legs
         end).
Proof.
  intros Hkey. simpl. rewrite (get_tfl_journey_keyed _ _ _ _ _ _ _ _ _ _ Hkey).
  simpl. unfold print_journey_instructions, render_journey. simpl. split_and!.
  - by intros e ->.
  - intros data -> Hnone. by rewrite (first_journey_result_none _ Hnone).
  - intros data j rest -> Hjs. unfold first_journey_result. rewrite Hjs. simpl.
    unfold result_legs. simpl. by destruct (journey_legs j).
Qed.

Lemma print_after_fetch_witness :
  print_journey_instructions None
    (get_tfl_journey timeout_env "IG3 8EE" "EC2Y 5BL" None false None None None None
       keyed).2
  = NotSuccessful "API request failed: Read timed out.".
Proof.
  exact (proj1 (print_after_fetch timeout_env "IG3 8EE" "EC2Y 5BL" None false None
                  None None None keyed eq_refl)
           (ReadTimeout "Read timed out.") eq_refl).
Defined.

(** ** The option table *)



Lemma contains_T_app (s t : string) :
  contains_T (s ++ t) = contains_T s || contains_T t.
Proof.
  induction s as [|c s IH]; [done|]. rewrite string_app_cons. simpl.
  by rewrite IH, orb_assoc.
Qed.

Lemma take_chars_length (n : nat) (s : string) :
  (String.length (take_chars n s) ≤ n)%nat.
Proof.
  revert s. induction n as [|n IH]; intros [|c s]; simpl; try lia.
  specialize (IH s). lia.
Qed.

(** The clock time shown for a timestamp: text without a ['T'] is shown as
    it is; otherwise the first five characters of what follows the first
    ['T'] (up to a further ['T']), so never more than five characters. *)
Theorem short_time_spec (s : string) :
  (contains_T s = false → short_time s = s)
  ∧ (contains_T s = true → (String.length (short_time s) ≤ 5)%nat)
  ∧ (∀ date clock, s = (date ++ "T" ++ clock)%string → contains_T date = false →
       short_time s = take_chars 5 (until_T clock)).
Proof.
  unfold short_time. split_and!.
  - by intros ->.
  - intros ->. apply take_chars_length.
  - intros date clock -> Hdate.
    rewrite contains_T_app, Hdate. simpl. f_equal.
    induction date as [|c date IH]; [done|].
    rewrite string_app_cons. simpl in *.
    destruct (Ascii.nat_of_ascii c =? 84)%nat; [done|]. by apply IH.
Qed.

Example short_time_iso :
  short_time "2025-11-15T08:30:00" = "08:30"
  ∧ short_time "08:30" = "08:30"
  ∧ route_str (journey_legs kings_cross_journey)
    = "Kings Cross → [tube] → Euston → [tube] → Oxford Circus".
Proof. vm_compute. done. Qed.

(** ** The map *)

Lemma point_coords_some (p : option raw_point) (c : num * num) :
  point_coords p = Some c →
  c.1 ≠ lit 0 ∧ c.2 ≠ lit 0
  ∧ ∃ q, p = Some q ∧ lat q = Some c.1 ∧ lon q = Some c.2.
Proof.
  unfold point_coords. destruct p as [q|]; simpl; [|done].
  destruct (lat q) as [la|] eqn:Hla; [|done].
  destruct (lon q) as [lo|] eqn:Hlo; [|done].
  destruct (truthy_num la) eqn:Ha; simpl; [|done].
  destruct (truthy_num lo) eqn:Ho; simpl; [|done].
  intros [= <-]. simpl. apply truthy_num_true in Ha, Ho.
  split_and!; [done|done|]. by exists q.
Qed.

Lemma option_list_elem {A : Type} (o : option A) (x : A) :
  x ∈ option_list o → o = Some x.
Proof.
  destruct o as [y|]; simpl; [|by intros ?%elem_of_nil].
  by intros ->%list_elem_of_singleton.
Qed.

(** The points the map is fitted to: at most two for each leg, each an end
    point of a leg with a latitude and a longitude that are both present
    and not zero; an end point with a coordinate equal to zero is left
    out. *)
Theorem all_coords_nonzero (legs : list raw_leg) :
  (length (all_coords legs) ≤ 2 * length legs)%nat
  ∧ (∀ c, c ∈ all_coords legs →
       c.1 ≠ lit 0 ∧ c.2 ≠ lit 0
       ∧ ∃ leg q, leg ∈ legs
           ∧ (departurePoint leg = Some q ∨ arrivalPoint leg = Some q)
           ∧ lat q = Some c.1 ∧ lon q = Some c.2)
  ∧ (∀ q, lat q = Some (lit 0) ∨ lon q = Some (lit 0) →
       point_coords (Some q) = None).
Proof.
  unfold all_coords. split_and!.
  - induction legs as [|leg legs IH]; [done|].
    rewrite bind_cons, length_app. unfold leg_coords at 1. rewrite length_app.
    assert (Hone : ∀ o : option (num * num), (length (option_list o) ≤ 1)%nat)
      by (intros [?|]; simpl; lia).
    pose proof (Hone (point_coords (departurePoint leg))).
    pose proof (Hone (point_coords (arrivalPoint leg))).
    simpl length. lia.
  - intros c Hc. apply list_elem_of_bind in Hc as (leg & Hc & Hleg).
    unfold leg_coords in Hc. apply elem_of_app in Hc as [Hc|Hc];
      apply option_list_elem in Hc;
      apply point_coords_some in Hc as (H1 & H2 & q & Hq & Hla & Hlo);
      (split_and!; [done|done|]); exists leg, q; split_and!; auto.
  - assert (Hz : truthy_num (lit 0) = false).
    { apply bool_decide_eq_false_2. intros H. by apply H. }
    intros q [Hq|Hq]; unfold point_coords;
      change (default empty_point (Some q)) with q; rewrite Hq.
    + destruct (lon q); [|done]. by rewrite Hz.
    + destruct (lat q) as [la|]; [|done]. by rewrite Hz, andb_false_r.
Qed.

(** A leg is drawn in grey exactly when its lower-cased mode name is not
    one of the nine names of the palette. *)
Theorem grey_for_unknown_modes (leg : raw_leg) :
  leg_color leg = "#666666" ↔ mode_colors !! lower (leg_mode_name leg) = None.
Proof.
  unfold leg_color. split.
  - destruct (mode_colors !! lower (leg_mode_name leg)) as [c|] eqn:Hc; [|done].
    simpl. intros ->. unfold mode_colors in Hc.
    apply elem_of_list_to_map_2 in Hc.
    repeat (apply elem_of_cons in Hc as [Hc|Hc]; [discriminate Hc|]).
    by apply elem_of_nil in Hc.
  - by intros ->.
Qed.

Example leg_colors :
  leg_color (RawLeg (Some "Tube") None None None) = "#003688"
  ∧ leg_color (RawLeg (Some "cable-car") None None None) = "#666666"
  ∧ leg_color (RawLeg None None None None) = "#666666".
Proof. vm_compute. done. Qed.

(** ** The dashboard *)

Lemma get_all_journey_options_cache (E : env) (from_location to_location : string)
    (kwargs : options) (self : calculator) :
  last_journey (get_all_journey_options E from_location to_location kwargs self).2
  = last_journey self.
Proof. unfold get_all_journey_options. by repeat case_match. Qed.

Lemma get_all_journey_options_nonempty (E : env) (from_location to_location : string)
    (kwargs : options) (self : calculator) :
  (get_all_journey_options E from_location to_location kwargs self).1 ≠ Some [].
Proof.
  unfold get_all_journey_options, journey_options_of_data.
  by repeat (case_match; simpl).
Qed.

(** Pressing "Calculate Route": with a blank postcode nothing is asked and
    the session stays as it was; otherwise either the session shows the
    first listed option, which is also put in the calculator's cache, or it
    shows no journey, in which case the calculator's cache keeps whatever
    it held before. *)
Theorem on_calculate_outcome (E : env) (from_input to_input : string)
    (transport_mode journey_preference : string) (st : session) :
  let after := on_calculate E from_input to_input transport_mode journey_preference
                 st in
  let listed := get_all_journey_options E (strip from_input) (strip to_input)
                  (dashboard_kwargs transport_mode journey_preference)
                  (ss_calculator st) in
  (strip from_input = EmptyString ∨ strip to_input = EmptyString →
   after = (st, Some "Please enter both home and office postcodes"))
  ∧ (strip from_input ≠ EmptyString → strip to_input ≠ EmptyString →
     match ss_journey_result after.1 with
     | Some r =>
         after.2 = None
         ∧ last_journey (ss_calculator after.1) = Some r
         ∧ ∃ first_journey rest,
             listed.1 = Some (first_journey :: rest)
             ∧ ss_all_journeys after.1 = Some (first_journey :: rest)
             ∧ r = journey_result_of first_journey
     | None =>
         is_Some after.2
         ∧ listed.1 = None
         ∧ ss_all_journeys after.1 = None
         ∧ last_journey (ss_calculator after.1)
           = last_journey (ss_calculator st)
     end).
Proof.
  simpl. unfold on_calculate. split.
  - intros [->| ->]; simpl; [done|]. by rewrite orb_true_r.
  - intros Hfrom Hto.
    destruct (strip from_input) as [|c1 s1] eqn:Hf; [done|].
    destruct (strip to_input) as [|c2 s2] eqn:Ht; [done|]. simpl.
    pose proof (get_all_journey_options_cache E (String c1 s1) (String c2 s2)
                  (dashboard_kwargs transport_mode journey_preference)
                  (ss_calculator st)) as Hcache.
    pose proof (get_all_journey_options_nonempty E (String c1 s1) (String c2 s2)
                  (dashboard_kwargs transport_mode journey_preference)
                  (ss_calculator st)) as Hsome.
    destruct (get_all_journey_options E (String c1 s1) (String c2 s2)
                (dashboard_kwargs transport_mode journey_preference)
                (ss_calculator st)) as [[[|j js]|] calc]; simpl in *.
    + done.
    + split_and!; [done|done|]. by exists j, js.
    + split_and!; [by eexists|done|done|done].
Qed.

(** Whenever the session shows a journey, it is a successful one and it is
    the journey in the calculator's cache: this holds when the session
    starts and is kept by "Calculate Route" and by the option selector. *)
Theorem session_shows_cached_journey (E : env) (getenv : option string)
    (from_input to_input transport_mode journey_preference : string)
    (selected_option : nat) (st : session) :
  let shown_is_cached (s : session) :=
    ∀ r, ss_journey_result s = Some r →
         last_journey (ss_calculator s) = Some r ∧ r_success r = true in
  shown_is_cached (session_init getenv)
  ∧ (shown_is_cached st →
     shown_is_cached
       (on_calculate E from_input to_input transport_mode journey_preference st).1)
  ∧ (shown_is_cached st → shown_is_cached (on_select selected_option st)).
Proof.
  simpl. split_and!.
  - done.
  - intros Hst r. unfold on_calculate.
    destruct (negb (truthy_str (Some (strip from_input)))
              || negb (truthy_str (Some (strip to_input)))); simpl; [apply Hst|].
    destruct (get_all_journey_options E (strip from_input) (strip to_input)
                (dashboard_kwargs transport_mode journey_preference)
                (ss_calculator st)) as [[[|j js]|] calc]; simpl; [done| |done].
    by intros [= <-].
  - intros Hst r. unfold on_select.
    destruct (ss_journey_result st) as [journey|] eqn:Hj; [|by rewrite Hj].
    destruct (r_success journey); [|rewrite Hj; apply Hst; by rewrite Hj].
    destruct (ss_all_journeys st) as [all_journeys|];
      [|rewrite Hj; apply Hst; by rewrite Hj].
    destruct (1 <? length all_journeys)%nat;
      [|rewrite Hj; apply Hst; by rewrite Hj].
    destruct (all_journeys !! selected_option) as [selected|];
      [|rewrite Hj; apply Hst; by rewrite Hj].
    simpl. by intros [= <-].
Qed.

(** Choosing an option that exists, when a journey is shown and more than
    one option is listed, shows that option and caches it; the list of
    options is kept. *)
Theorem on_select_shows_option (selected_option : nat) (st : session)
    (journey : journey_result) (all_journeys : list raw_journey)
    (selected : raw_journey) :
  ss_journey_result st = Some journey → r_success journey = true →
  ss_all_journeys st = Some all_journeys → (1 < length all_journeys)%nat →
  all_journeys !! selected_option = Some selected →
  let after := on_select selected_option st in
  ss_journey_result after = Some (journey_result_of selected)
  ∧ last_journey (ss_calculator after) = Some (journey_result_of selected)
  ∧ ss_all_journeys after = Some all_journeys
  ∧ requests_log (ss_calculator after) = requests_log (ss_calculator st).
Proof.
  intros Hj Hs Hall Hlen Hsel. simpl. unfold on_select.
  rewrite Hj, Hs, Hall, Hsel.
  by rewrite (proj2 (Nat.ltb_lt 1 (length all_journeys)) Hlen).
Qed.

Lemma on_select_shows_option_witness :
  let st := (on_calculate two_options_env "IG3 8EE" "W1D 3BG" "All modes"
               "Least time" (session_init (Some "k3y"))).1 in
  ss_journey_result st = Some (journey_result_of kings_cross_journey)
  ∧ ss_journey_result (on_select 1 st) = Some (journey_result_of stratford_journey).
Proof.
  simpl. split; [reflexivity|].
  refine (proj1 (on_select_shows_option 1 _ (journey_result_of kings_cross_journey)
                   [kings_cross_journey; stratford_journey] stratford_journey
                   _ _ _ _ _)).
  - reflexivity.
  - reflexivity.
  - reflexivity.
  - simpl. lia.
  - reflexivity.
Defined.

Lemma py_min_positive (a b : num) :
  lit 0 < a → lit 0 < b → lit 0 < py_min a b.
Proof. intros Ha Hb. unfold py_min. by case_bool_decide. Qed.

(** The dashboard shows an amount under "Monthly Cost" exactly when the
    journey is a success and the single fare used is positive; with no
    fare, or a zero or negative one, it shows "N/A". *)
Theorem monthly_metric_shown_iff (E : env) (journey : journey_result)
    (self : calculator) :
  monthly_metric_shown E journey self
  = r_success journey
    && positive_num (resolve_single_fare (default empty_fare_info (r_fare journey))).
Proof.
  unfold monthly_metric_shown, calculate_monthly_commute_cost. simpl.
  destruct (r_success journey); simpl; [|done].
  set (s := resolve_single_fare (default empty_fare_info (r_fare journey))).
  rewrite cap_shape, monthly_shape, lit_mult.
  assert (H50 : lit 0 < lit 50) by by apply lit_lt.
  assert (Hm : lit 0 < lit (inject_Z 5 * 8.66)) by by apply lit_lt.
  unfold positive_num. destruct (decide (lit 0 < s)) as [Hs|Hs].
  - rewrite (bool_decide_eq_true_2 (lit 0 < s)) by done.
    apply bool_decide_eq_true_2, py_min_positive; by apply Qcmult_pos_pos.
  - rewrite (bool_decide_eq_false_2 (lit 0 < s)) by done.
    apply bool_decide_eq_false_2. intros Hpos.
    destruct (py_min_is_min (s * lit (inject_Z 5 * 8.66)) (s * lit 50))
      as (_ & Hle & _).
    apply Qcnot_lt_le in Hs.
    assert (Hcap : s * lit 50 <= lit 0).
    { unfold lit in *. rewrite <- (Qcmult_0_l (Q2Qc 50)).
      apply Qcmult_le_compat_r; [done|]. by apply Qclt_le_weak. }
    apply (Qcle_not_lt _ _ (Qcle_trans _ _ _ Hle Hcap)). exact Hpos.
Qed.

Example monthly_metric_examples :
  monthly_metric_shown one_journey_env (journey_result_of fare_280_journey) keyed = true
  ∧ monthly_metric_shown one_journey_env (journey_result_of no_fare_journey) keyed
    = false
  ∧ monthly_metric_shown one_journey_env
      (journey_result_of negative_low_zone_journey) keyed = false
  ∧ monthly_metric_shown one_journey_env timed_out_result keyed = false.
Proof. vm_compute. done. Qed.
